(** * pubmed-converter: the upload / convert / download session

    A shallow embedding of [src/PDFtoXMLConverter.jsx] (the conversion
    session component) and of [DropZone] (the file intake component), and the
    properties of the session state machine proved over it.

    React state hooks become the fields of a record; every handler is a
    computation in a small state-and-exception monad over the session and the
    browser around it (alerts, network requests, object URLs).  The
    asynchronous [handleSubmit] is split at [await fetch(...)]: the part that
    runs when the form is submitted, and the part that runs once the request
    has settled.  That second part reads no hook and performs all its state
    updates after its last [await], so it is one atomic step of the model. *)

From stdpp Require Import gmap strings list pretty.

Set Default Proof Using "Type".

(** ** Strings *)

(** [str.replace(pattern, replacement)] for a string pattern: only the
    first occurrence is replaced.  (The replacement used by the component is
    the empty string, so no [$] pattern is involved.) *)
Fixpoint String_replace (pattern replacement str : string) : string :=
  if String.prefix pattern str
  then replacement +:+ String.substring (String.length pattern)
                         (String.length str - String.length pattern) str
  else match str with
       | EmptyString => EmptyString
       | String c rest => String c (String_replace pattern replacement rest)
       end.

(** [sep.join(parts)]. *)
Fixpoint String_join (sep : string) (parts : list string) : string :=
  match parts with
  | [] => ""
  | [p] => p
  | p :: rest => p +:+ sep +:+ String_join sep rest
  end.

(** ** Files, exceptions, promises *)

Record File := { name : string; type : string }.

Global Instance File_eq_dec : EqDecision File.
Proof. solve_decision. Defined.

(** What a handler passes to [onFileUpload], and so what [handlePDFUpload]
    and [handleFigureUpload] receive: [files[0]] of an empty selection is
    [undefined], otherwise one [File], or an array of them. *)
Inductive Upload :=
| upload_undefined
| upload_file (f : File)
| upload_array (fs : list File).

(** A thrown value, as far as the component looks at it: [error.message]. *)
Record JSError := Error { message : string }.

(** The result of an expression that may throw, or of an awaited promise
    that may reject. *)
Inductive Outcome (A : Type) :=
| Return (a : A)
| Throw (e : JSError).
Arguments Return {A} a.
Arguments Throw {A} e.

Global Instance Outcome_ret : MRet Outcome := λ A a, Return a.
Global Instance Outcome_bind : MBind Outcome := λ A B k o,
  match o with
  | Return a => k a
  | Throw e => Throw e
  end.

(** ** The session state *)

Inductive ConversionState := idle | converting | completed.

Global Instance ConversionState_eq_dec : EqDecision ConversionState.
Proof. solve_decision. Defined.

(** An object URL minted by [window.URL.createObjectURL(blob)]. *)
Record ObjectURL := { url_id : nat; url_blob : string }.

(** One field of a multipart form. *)
Inductive FormValue :=
| form_file (f : File)
| form_string (s : string).

Definition FormData := list (string * FormValue).

(** The backend's answer to [fetch]: [response.ok], and the body as the
    stream delivers it (reading the body can itself fail). *)
Record Response := { ok : bool; body : Outcome string }.

(** An entry of a decoded archive: whether it is a folder, and what
    [entry.async("string")] resolves to. *)
Record ZipObject := { dir : bool; async_string : Outcome string }.

(** [zip.file(name)] of JSZip for a string [name]: the entry of that exact
    name unless it is a folder, else [null]. *)
Definition zip_file (zip : gmap string ZipObject) (entry : string) : option ZipObject :=
  match zip !! entry with
  | Some o => if dir o then None else Some o
  | None => None
  end.

(** What the page does to the world around it. *)
Inductive Effect :=
| preventDefault
| stopPropagation
| alert (text : string)
| console_error (label : string) (e : JSError)
| fetch (url method : string) (form : FormData)
| createObjectURL (blob : string) (u : ObjectURL)
| save_link (href : ObjectURL) (download : string).

(** ** The platform

    What the component takes from the JavaScript engine and from JSZip.
    Numbers are IEEE doubles; the component only tests them for truth and
    prints them. *)
Class Numbers := {
  Number : Type;
  Number_truthy : Number → bool;
  Number_toString : Number → string
}.

(** A value produced by [JSON.parse]. *)
#[local] Unset Elimination Schemes.
Inductive JSON `{Numbers} :=
| JNull
| JBool (b : bool)
| JNumber (n : Number)
| JString (s : string)
| JArray (elements : list JSON)
| JObject (properties : list (string * JSON)).
#[local] Set Elimination Schemes.

Class Platform `{Numbers} := {
  (** [JSON.parse(text)]; it throws a [SyntaxError] on malformed text. *)
  JSON_parse : string → Outcome JSON;
  (** [JSZip.loadAsync(bytes)]: the entries by name, or a rejection. *)
  JSZip_loadAsync : string → Outcome (gmap string ZipObject);
  (** The message of the [TypeError] the engine throws when property [p] of
      [null] is read. *)
  TypeError_message : string → string
}.

Section Converter.

Context `{Platform}.

(** [ToBoolean]; [None] stands for [undefined]. *)
Definition truthy (v : option JSON) : bool :=
  match v with
  | None => false
  | Some JNull => false
  | Some (JBool b) => b
  | Some (JNumber n) => Number_truthy n
  | Some (JString s) => negb (String.eqb s "")
  | Some (JArray _) => true
  | Some (JObject _) => true
  end.

(** [a || b]. *)
Definition logical_or (a : option JSON) (b : JSON) : JSON :=
  match a with
  | Some v => if truthy a then v else b
  | None => b
  end.

(** [ToString]; an array prints as its elements joined by commas, with
    [null] elements printed as nothing. *)
Fixpoint ToString (v : JSON) : string :=
  match v with
  | JNull => "null"
  | JBool true => "true"
  | JBool false => "false"
  | JNumber n => Number_toString n
  | JString s => s
  | JArray elements =>
      String_join ","
        ((fix each (l : list JSON) : list string :=
            match l with
            | [] => []
            | JNull :: l' => "" :: each l'
            | x :: l' => ToString x :: each l'
            end) elements)
  | JObject _ => "[object Object]"
  end.

(** Lookup in the property table of a parsed object. *)
Fixpoint assoc (key : string) (properties : list (string * JSON)) : option JSON :=
  match properties with
  | [] => None
  | (k, v) :: rest => if String.eqb k key then Some v else assoc key rest
  end.

(** [v.p] for a parsed value [v] and a property [p] that is no built-in
    one: reading from [null] throws, only objects have own properties. *)
Definition get_property (v : JSON) (p : string) : Outcome (option JSON) :=
  match v with
  | JNull => Throw (Error (TypeError_message p))
  | JObject properties => Return (assoc p properties)
  | _ => Return None
  end.

(** [response.json()] and [response.blob()]. *)
Definition response_json (r : Response) : Outcome JSON :=
  text ← body r; JSON_parse text.
Definition response_blob (r : Response) : Outcome string := body r.

(** The hooks of [PDFtoXMLConverter]. *)
Record Session := {
  articleType : string;
  pdfFile : option File;
  figures : list (option File);
  conversionState : ConversionState;
  downloadUrl : option ObjectURL;
  validationErrors : JSON
}.

(** The session within the browser: the hooks, the effects so far (oldest
    first), the requests that have not settled yet, and the number of
    object URLs minted. *)
Record World := {
  session : Session;
  effects : list Effect;
  pending : list FormData;
  minted : nat
}.

(** *** Handlers as computations

    A handler runs against the world and either returns or throws; what
    it did to the world before throwing stays done. *)
Definition M (A : Type) : Type := World → Outcome A * World.

Global Instance M_ret : MRet M := λ A a w, (Return a, w).
Global Instance M_bind : MBind M := λ A B k m w,
  match m w with
  | (Return a, w') => k a w'
  | (Throw e, w') => (Throw e, w')
  end.

Definition throw {A} (e : JSError) : M A := λ w, (Throw e, w).
Definition try_catch {A} (m : M A) (handler : JSError → M A) : M A := λ w,
  match m w with
  | (Return a, w') => (Return a, w')
  | (Throw e, w') => handler e w'
  end.
(** [await p] for a promise that settles with [o]. *)
Definition await {A} (o : Outcome A) : M A := λ w, (o, w).
Definition when (c : bool) (m : M unit) : M unit := if c then m else mret ().

(** The hook values a handler closes over. *)
Definition hooks : M Session := λ w, (Return (session w), w).

Definition update (f : Session → Session) : M unit := λ w,
  (Return (), {| session := f (session w); effects := effects w;
                 pending := pending w; minted := minted w |}).

Definition emit (e : Effect) : M unit := λ w,
  (Return (), {| session := session w; effects := effects w ++ [e];
                 pending := pending w; minted := minted w |}).

(** A call of a hook's setter replaces that hook's value and leaves the
    other hooks alone. *)
Definition with_articleType (v : string) (s : Session) : Session :=
  {| articleType := v; pdfFile := pdfFile s; figures := figures s;
     conversionState := conversionState s; downloadUrl := downloadUrl s;
     validationErrors := validationErrors s |}.
Definition with_pdfFile (v : option File) (s : Session) : Session :=
  {| articleType := articleType s; pdfFile := v; figures := figures s;
     conversionState := conversionState s; downloadUrl := downloadUrl s;
     validationErrors := validationErrors s |}.
Definition with_figures (v : list (option File)) (s : Session) : Session :=
  {| articleType := articleType s; pdfFile := pdfFile s; figures := v;
     conversionState := conversionState s; downloadUrl := downloadUrl s;
     validationErrors := validationErrors s |}.
Definition with_conversionState (v : ConversionState) (s : Session) : Session :=
  {| articleType := articleType s; pdfFile := pdfFile s; figures := figures s;
     conversionState := v; downloadUrl := downloadUrl s;
     validationErrors := validationErrors s |}.
Definition with_downloadUrl (v : option ObjectURL) (s : Session) : Session :=
  {| articleType := articleType s; pdfFile := pdfFile s; figures := figures s;
     conversionState := conversionState s; downloadUrl := v;
     validationErrors := validationErrors s |}.
Definition with_validationErrors (v : JSON) (s : Session) : Session :=
  {| articleType := articleType s; pdfFile := pdfFile s; figures := figures s;
     conversionState := conversionState s; downloadUrl := downloadUrl s;
     validationErrors := v |}.

Definition setArticleType (v : string) : M unit := update (with_articleType v).
Definition setPdfFile (v : option File) : M unit := update (with_pdfFile v).
(** [setFigures] is called with an updater function or with a constant;
    both are [setFigures f]. *)
Definition setFigures (f : list (option File) → list (option File)) : M unit :=
  update (λ s, with_figures (f (figures s)) s).
Definition setConversionState (v : ConversionState) : M unit :=
  update (with_conversionState v).
Definition setDownloadUrl (v : option ObjectURL) : M unit :=
  update (with_downloadUrl v).
Definition setValidationErrors (v : JSON) : M unit :=
  update (with_validationErrors v).

(** [fetch(url, {method, body})]: the request goes out and stays pending
    until it settles. *)
Definition send (url method : string) (form : FormData) : M unit := λ w,
  (Return (), {| session := session w;
                 effects := effects w ++ [fetch url method form];
                 pending := pending w ++ [form]; minted := minted w |}).

(** [window.URL.createObjectURL(blob)]: a fresh URL for the blob. *)
Definition URL_createObjectURL (blob : string) : M ObjectURL := λ w,
  let u := {| url_id := minted w; url_blob := blob |} in
  (Return u, {| session := session w;
                effects := effects w ++ [createObjectURL blob u];
                pending := pending w; minted := S (minted w) |}).

(** *** The conversion session: [PDFtoXMLConverter] *)

Definition initial_session : Session :=
  {| articleType := "abstract"; pdfFile := None; figures := [];
     conversionState := idle; downloadUrl := None;
     validationErrors := JArray [] |}.

(** [file.type], [file[0]] and [file[0]?.type] for what the upload
    callback receives: an array has no [type], a [File] has no index. *)
Definition Upload_truthy (file : Upload) : bool :=
  match file with upload_undefined => false | _ => true end.
Definition Upload_type (file : Upload) : option string :=
  match file with upload_file f => Some (type f) | _ => None end.
Definition Upload_index0 (file : Upload) : option File :=
  match file with upload_array fs => head fs | _ => None end.
Definition Upload_as_file (file : Upload) : option File :=
  match file with upload_file f => Some f | _ => None end.
Definition strict_equal (v : option string) (s : string) : bool :=
  match v with Some t => String.eqb t s | None => false end.
Definition string_truthy (v : option string) : bool :=
  match v with Some t => negb (String.eqb t "") | None => false end.

Definition handlePDFUpload (file : Upload) : M unit :=
  if Upload_truthy file
     && (strict_equal (Upload_type file) "application/pdf"
         || strict_equal (type <$> Upload_index0 file) "application/pdf")
  then
    let actualFile :=
      if string_truthy (Upload_type file) then Upload_as_file file
      else Upload_index0 file in
    setPdfFile actualFile;;
    setConversionState idle;;
    setDownloadUrl None;;
    setValidationErrors (JArray [])
  else
    emit (alert "Please upload a PDF file").

Definition handleFigureUpload (files : Upload) : M unit :=
  let imageFiles :=
    match files with
    | upload_array fs => Some <$> fs
    | upload_file f => [Some f]
    | upload_undefined => [None]
    end in
  setFigures (λ prev, prev ++ imageFiles).

(** [formData.append("figures", fig)]: a value that is no file is
    appended as its string. *)
Definition figure_field (fig : option File) : string * FormValue :=
  match fig with
  | Some f => ("figures", form_file f)
  | None => ("figures", form_string "undefined")
  end.

(** The multipart form [handleSubmit] builds from the hooks. *)
Definition form_of (pdf : File) (s : Session) : FormData :=
  [("pdf", form_file pdf); ("articleType", form_string (articleType s))]
  ++ (figure_field <$> figures s).

(** [handleSubmit] up to and including the call of [fetch]. *)
Definition handleSubmit : M unit :=
  s ← hooks;
  emit preventDefault;;
  match pdfFile s with
  | None => emit (alert "Please select a PDF file first")
  | Some pdf =>
      let formData := form_of pdf s in
      setConversionState converting;;
      send "http://localhost:5000/convert" "POST" formData
  end.

(** The rest of [handleSubmit], from the moment [fetch] has settled with
    [fetched], under the [try] that was entered before the request. *)
Definition handleSubmit_settled (fetched : Outcome Response) : M unit :=
  try_catch
    (response ← await fetched;
     when (negb (ok response))
       (data ← try_catch (await (response_json response))
                 (λ _, throw (Error "Conversion failed"));
        error ← await (get_property data "error");
        throw (Error (ToString (logical_or error (JString "Conversion failed")))));;
     zipBlob ← await (response_blob response);
     zip ← await (JSZip_loadAsync zipBlob);
     match zip_file zip "validation_report.json" with
     | Some validationFile =>
         validationContent ← await (async_string validationFile);
         validationJson ← await (JSON_parse validationContent);
         errors ← await (get_property validationJson "errors");
         match errors with
         | Some value => when (truthy errors) (setValidationErrors value)
         | None => mret ()
         end
     | None => mret ()
     end;;
     zipUrl ← URL_createObjectURL zipBlob;
     setDownloadUrl (Some zipUrl);;
     setConversionState completed)
    (λ error,
       emit (console_error "Conversion error:" error);;
       emit (alert ("Error: " +:+ message error));;
       setConversionState idle).

(** The name the archive is saved under. *)
Definition zip_name (pdf : File) : string :=
  String_replace ".pdf" "" (name pdf) +:+ ".zip".

Definition handleDownload : M unit :=
  s ← hooks;
  match downloadUrl s with
  | Some url =>
      download ← match pdfFile s with
                 | Some pdf => mret (zip_name pdf)
                 | None => throw (Error (TypeError_message "name"))
                 end;
      emit (save_link url download);;
      setConversionState idle;;
      setPdfFile None;;
      setFigures (λ _, []);;
      setDownloadUrl None;;
      setValidationErrors (JArray [])
  | None => mret ()
  end.

(** What the rendered form offers.  The submit button carries
    [disabled={!pdfFile || conversionState === "converting"}].  The
    [SuccessDownload] panel, which holds the download button, is rendered
    under [conversionState === "completed" && downloadUrl]; its [filename]
    prop reads [pdfFile.name], so rendering it throws when no PDF is
    selected.  [Return None]: no panel. *)
Definition submit_disabled (s : Session) : bool :=
  negb (bool_decide (is_Some (pdfFile s)))
  || bool_decide (conversionState s = converting).

Definition SuccessDownload (s : Session) : Outcome (option string) :=
  if bool_decide (conversionState s = completed)
     && bool_decide (is_Some (downloadUrl s))
  then match pdfFile s with
       | Some pdf => Return (Some (zip_name pdf))
       | None => Throw (Error (TypeError_message "name"))
       end
  else Return None.

(** *** The file intake: [DropZone] *)

Record DropZone := { isDragging : bool; files : list (option File) }.

Definition initial_DropZone : DropZone := {| isDragging := false; files := [] |}.

(** What a handler of the drop zone leaves behind: its own new state,
    what it did to the event, and, when it calls [onFileUpload], the
    argument of the call. *)
Record Handled := {
  zone : DropZone;
  on_event : list Effect;
  onFileUpload : option Upload
}.

Definition handleDrag (event_type : string) (z : DropZone) : Handled :=
  {| zone :=
       if String.eqb event_type "dragenter" || String.eqb event_type "dragover"
       then {| isDragging := true; files := files z |}
       else if String.eqb event_type "dragleave" || String.eqb event_type "drop"
       then {| isDragging := false; files := files z |}
       else z;
     on_event := [preventDefault; stopPropagation];
     onFileUpload := None |}.

(** [multiple ? files : files[0]]. *)
Definition uploaded (multiple : bool) (selection : list File) : Upload :=
  if multiple then upload_array selection
  else match head selection with
       | Some f => upload_file f
       | None => upload_undefined
       end.

Definition handleDrop (multiple : bool) (droppedFiles : list File) (z : DropZone) : Handled :=
  {| zone :=
       {| isDragging := false;
          files := if multiple then files z ++ (Some <$> droppedFiles)
                   else [head droppedFiles] |};
     on_event := [preventDefault; stopPropagation];
     onFileUpload := Some (uploaded multiple droppedFiles) |}.

Definition handleChange (multiple : bool) (selectedFiles : list File) (z : DropZone) : Handled :=
  {| zone :=
       {| isDragging := isDragging z;
          files := if multiple then files z ++ (Some <$> selectedFiles)
                   else [head selectedFiles] |};
     on_event := [];
     onFileUpload := Some (uploaded multiple selectedFiles) |}.

(** *** What else the components render *)

(** [files.map(file => file.name)]: reading the name of an entry that is
    [undefined] throws ([None]). *)
Definition names_of (fs : list (option File)) : option (list string) :=
  mapM (fmap name) fs.

(** [PDFtoXMLConverter]: the spinner is rendered under
    [conversionState === "converting"], which also picks the text of the
    submit button; the names of the figures are listed (when there are
    any). *)
Definition spinner_shown (s : Session) : bool :=
  bool_decide (conversionState s = converting).
Definition submit_label (s : Session) : string :=
  if bool_decide (conversionState s = converting) then "Converting..."
  else "Convert to XML".
Definition figure_list (s : Session) : option (list string) :=
  names_of (figures s).

(** [DropZone]: the text under the icon, and the names listed below it
    (when there are any). *)
Definition DropZone_label (multiple : bool) (z : DropZone) : string :=
  if bool_decide (0 < length (files z))
  then pretty (length (files z)) +:+ " file"
       +:+ (if bool_decide (length (files z) = 1) then "" else "s")
       +:+ " selected"
  else "Click or drag " +:+ (if multiple then "files" else "a file")
       +:+ " to upload".
Definition DropZone_names (z : DropZone) : option (list string) :=
  names_of (files z).

(** *** The page: the form with its two drop zones *)

Record App := { pdfZone : DropZone; figuresZone : DropZone; world : World }.

Definition initial_App : App :=
  {| pdfZone := initial_DropZone; figuresZone := initial_DropZone;
     world := {| session := initial_session; effects := []; pending := [];
                 minted := 0 |} |}.

Inductive Zone := pdf_zone | figures_zone.

(** The props each [<DropZone>] is given. *)
Definition multiple (z : Zone) : bool :=
  match z with pdf_zone => false | figures_zone => true end.
Definition callback (z : Zone) : Upload → M unit :=
  match z with pdf_zone => handlePDFUpload | figures_zone => handleFigureUpload end.

(** What can happen to the page. *)
Inductive Event :=
| drag (z : Zone) (event_type : string)
| drop (z : Zone) (droppedFiles : list File)
| change (z : Zone) (selectedFiles : list File)
| select_articleType (value : string)
| submit
| settle (request : nat) (fetched : Outcome Response)
| download.

(** The world after a handler has run (an exception that escapes a
    handler is reported by the browser; updates made before it stay). *)
Definition exec (m : M unit) (w : World) : World := (m w).2.

Definition log (es : list Effect) : M unit := λ w,
  (Return (), {| session := session w; effects := effects w ++ es;
                 pending := pending w; minted := minted w |}).

Definition in_zone (z : Zone) (h : DropZone → Handled) (a : App) : App :=
  let current := match z with pdf_zone => pdfZone a | figures_zone => figuresZone a end in
  let r := h current in
  let w := exec (log (on_event r);;
                 match onFileUpload r with
                 | Some arg => callback z arg
                 | None => mret ()
                 end) (world a) in
  match z with
  | pdf_zone => {| pdfZone := zone r; figuresZone := figuresZone a; world := w |}
  | figures_zone => {| pdfZone := pdfZone a; figuresZone := zone r; world := w |}
  end.

Definition in_world (f : World → World) (a : App) : App :=
  {| pdfZone := pdfZone a; figuresZone := figuresZone a; world := f (world a) |}.

(** A pending request leaves the list when it settles. *)
Definition settled (request : nat) (w : World) : World :=
  {| session := session w; effects := effects w;
     pending := delete request (pending w); minted := minted w |}.

(** One event.  The browser fires no [submit] from a disabled button, a
    download click needs the panel with its button on the page, and only a
    request that is pending can settle. *)
Definition step (a : App) (e : Event) : App :=
  match e with
  | drag z event_type => in_zone z (handleDrag event_type) a
  | drop z droppedFiles => in_zone z (handleDrop (multiple z) droppedFiles) a
  | change z selectedFiles => in_zone z (handleChange (multiple z) selectedFiles) a
  | select_articleType value => in_world (exec (setArticleType value)) a
  | submit =>
      if submit_disabled (session (world a)) then a
      else in_world (exec handleSubmit) a
  | settle request fetched =>
      match pending (world a) !! request with
      | Some _ => in_world (λ w, exec (handleSubmit_settled fetched) (settled request w)) a
      | None => a
      end
  | download =>
      match SuccessDownload (session (world a)) with
      | Return (Some _) => in_world (exec handleDownload) a
      | _ => a
      end
  end.

Definition run (a : App) (es : list Event) : App := foldl step a es.

(** The pages that some sequence of events leads to. *)
Definition reachable (a : App) : Prop := ∃ es, a = run initial_App es.

(** *** Notions the properties are stated with *)

(** The error a response that is not OK makes [handleSubmit] throw. *)
Definition failure_of (r : Response) : JSError :=
  match response_json r with
  | Throw _ => Error "Conversion failed"
  | Return data =>
      match get_property data "error" with
      | Throw e => e
      | Return error => Error (ToString (logical_or error (JString "Conversion failed")))
      end
  end.

(** The world a conversion that succeeded leaves behind [w]: the state is
    [completed], a fresh object URL for the body is held, the validation
    errors are [errors], the rest is as in [w]. *)
Definition converted (bytes : string) (errors : JSON) (w : World) : World :=
  let url := {| url_id := minted w; url_blob := bytes |} in
  {| session :=
       {| articleType := articleType (session w);
          pdfFile := pdfFile (session w);
          figures := figures (session w);
          conversionState := completed;
          downloadUrl := Some url;
          validationErrors := errors |};
     effects := effects w ++ [createObjectURL bytes url];
     pending := pending w;
     minted := S (minted w) |}.

(** A drop of [fs] on the figures zone, or their selection in its file
    dialog. *)
Definition add_figures (by_drop : bool) (fs : list File) : Event :=
  if by_drop then drop figures_zone fs else change figures_zone fs.

(** On every page the events lead to, a [completed] session holds a
    download URL. *)
Definition completed_has_url (a : App) : Prop :=
  conversionState (session (world a)) = completed →
  is_Some (downloadUrl (session (world a))).

(** A request as the backend expects it: the PDF, of type
    [application/pdf], then the article type, then one file per figure. *)
Definition conversion_form (form : FormData) : Prop :=
  ∃ (pdf : File) (article : string) (figs : list File),
    type pdf = "application/pdf"
    ∧ form = [("pdf", form_file pdf); ("articleType", form_string article)]
             ++ ((λ f, ("figures", form_file f)) <$> figs).

(** What a request among the effects has to look like. *)
Definition conversion_request (e : Effect) : Prop :=
  match e with
  | fetch url method form =>
      url = "http://localhost:5000/convert" ∧ method = "POST" ∧ conversion_form form
  | _ => True
  end.

(** The world the [catch] block of [handleSubmit] leaves behind [w]. *)
Definition reverted (e : JSError) (w : World) : World :=
  {| session := with_conversionState idle (session w);
     effects := effects w ++
       [console_error "Conversion error:" e; alert ("Error: " +:+ message e)];
     pending := pending w;
     minted := minted w |}.

(** A drop of [fs] on a zone, or their selection in its file dialog. *)
Definition choose (by_drop : bool) (z : Zone) (fs : list File) : Event :=
  if by_drop then drop z fs else change z fs.

(** What holds of every page the events lead to (see [reachable_page_ok]):
    the stored PDF is of type [application/pdf]; every figure is a file;
    every request sent, and every request pending, is a conversion
    request; the figures are the last entries of the figures zone's list,
    which holds files only; the PDF zone lists at most one entry. *)
Definition page_ok (a : App) : Prop :=
  (∀ pdf, pdfFile (session (world a)) = Some pdf → type pdf = "application/pdf")
  ∧ Forall is_Some (figures (session (world a)))
  ∧ Forall conversion_request (effects (world a))
  ∧ Forall conversion_form (pending (world a))
  ∧ figures (session (world a)) `suffix_of` files (figuresZone a)
  ∧ Forall is_Some (files (figuresZone a))
  ∧ length (files (pdfZone a)) ≤ 1.

End Converter.

(** ** A platform for the examples

    Numbers are integers.  The answers of [JSON.parse] and of
    [JSZip.loadAsync] are tabulated for the texts and the archives the
    examples use; an archive is named by a tag where the browser would hold
    its bytes.  Everything else is rejected with the message the library
    gives. *)

Definition integers : Numbers :=
  {| Number := Z; Number_truthy := λ n, negb (n =? 0)%Z; Number_toString := pretty |}.

Definition quoted (s : string) : string :=
  String (Ascii.ascii_of_nat 34) (s +:+ String (Ascii.ascii_of_nat 34) "").

(** The JSON texts of the examples. *)
Definition report_text : string :=
  "{" +:+ quoted "errors" +:+ ":[{" +:+ quoted "element" +:+ ":" +:+ quoted "title"
  +:+ "," +:+ quoted "message" +:+ ":" +:+ quoted "missing" +:+ "}]}".
Definition bad_pdf_text : string :=
  "{" +:+ quoted "error" +:+ ":" +:+ quoted "bad pdf" +:+ "}".
Definition empty_error_text : string :=
  "{" +:+ quoted "error" +:+ ":" +:+ quoted "" +:+ "}".

Definition title_missing : @JSON integers :=
  JObject [("element", JString "title"); ("message", JString "missing")].

Definition parse_table : list (string * @JSON integers) :=
  [ (report_text, JObject [("errors", JArray [title_missing])]);
    (bad_pdf_text, JObject [("error", JString "bad pdf")]);
    (empty_error_text, JObject [("error", JString "")]);
    ("null", JNull) ].

(** The archives of the examples: the converted article with a report,
    without one, and with a report whose text stops after the brace. *)
Definition article : ZipObject := {| dir := false; async_string := Return "<article/>" |}.
Definition archive_with_report : gmap string ZipObject :=
  {[ "article.xml" := article;
     "validation_report.json" := {| dir := false; async_string := Return report_text |} ]}.
Definition archive_without_report : gmap string ZipObject :=
  {[ "article.xml" := article ]}.
Definition archive_report_cut_short : gmap string ZipObject :=
  {[ "article.xml" := article;
     "validation_report.json" := {| dir := false; async_string := Return "{" |} ]}.

Definition archive_table : list (string * gmap string ZipObject) :=
  [ ("<archive: article.xml, validation_report.json>", archive_with_report);
    ("<archive: article.xml>", archive_without_report);
    ("<archive: article.xml, validation_report.json (cut short)>",
     archive_report_cut_short) ].

Fixpoint table_lookup {A} (key : string) (table : list (string * A)) : option A :=
  match table with
  | [] => None
  | (k, v) :: rest => if String.eqb k key then Some v else table_lookup key rest
  end.

Definition example_platform : @Platform integers :=
  {| JSON_parse := λ text,
       match table_lookup text parse_table with
       | Some v => Return v
       | None => Throw (Error "Unexpected token in JSON")
       end;
     JSZip_loadAsync := λ bytes,
       match table_lookup bytes archive_table with
       | Some zip => Return zip
       | None => Throw (Error "Can't find end of central directory : is this a zip file ?")
       end;
     TypeError_message := λ p,
       "Cannot read properties of null (reading '" +:+ p +:+ "')" |}.

Definition paper : File := {| name := "paper.pdf"; type := "application/pdf" |}.
Definition nested : File := {| name := "a.pdf.b.pdf"; type := "application/pdf" |}.
Definition figure1 : File := {| name := "fig1.png"; type := "image/png" |}.

(** Responses of the backend. *)
Definition ok_with_report : Response :=
  {| ok := true; body := Return "<archive: article.xml, validation_report.json>" |}.
Definition ok_without_report : Response :=
  {| ok := true; body := Return "<archive: article.xml>" |}.
Definition ok_report_cut_short : Response :=
  {| ok := true;
     body := Return "<archive: article.xml, validation_report.json (cut short)>" |}.
Definition ok_not_an_archive : Response :=
  {| ok := true; body := Return "<html>It works!</html>" |}.
Definition failed_bad_pdf : Response := {| ok := false; body := Return bad_pdf_text |}.
Definition failed_empty_error : Response :=
  {| ok := false; body := Return empty_error_text |}.
Definition failed_null : Response := {| ok := false; body := Return "null" |}.

(** Pages: a PDF selected and submitted; then converted, with one
    validation error reported; then submitted again; and converted again,
    this time without a report. *)
Definition converting_page : @App integers :=
  @run integers example_platform initial_App [change pdf_zone [paper]; submit].
Definition completed_page : @App integers :=
  @run integers example_platform initial_App
    [change pdf_zone [paper]; submit; settle 0 (Return ok_with_report)].

(** A PDF with [.pdf] inside its name, converted. *)
Definition nested_page : @App integers :=
  @run integers example_platform initial_App
    [change pdf_zone [nested]; submit; settle 0 (Return ok_without_report)].

(** The form sent for [paper] alone. *)
Definition paper_form : FormData :=
  [("pdf", form_file paper); ("articleType", form_string "abstract")].

(** More pages: a PDF and a figure selected and submitted; the same
    converted and downloaded. *)
Definition illustrated_page : @App integers :=
  @run integers example_platform initial_App
    [change pdf_zone [paper]; drop figures_zone [figure1]; submit].
Definition downloaded_page : @App integers :=
  @run integers example_platform illustrated_page
    [settle 0 (Return ok_without_report); download].

(** A second platform, whose JSZip knows one more archive: its report is
    the text [null]. *)
Definition archive_null_report : gmap string ZipObject :=
  {[ "article.xml" := article;
     "validation_report.json" := {| dir := false; async_string := Return "null" |} ]}.
Definition null_report_platform : @Platform integers :=
  {| JSON_parse := @JSON_parse integers example_platform;
     JSZip_loadAsync := λ bytes,
       if String.eqb bytes "<archive: article.xml, validation_report.json (null)>"
       then Return archive_null_report
       else @JSZip_loadAsync integers example_platform bytes;
     TypeError_message := @TypeError_message integers example_platform |}.
Definition ok_null_report : Response :=
  {| ok := true;
     body := Return "<archive: article.xml, validation_report.json (null)>" |}.

(** ** Properties *)

(** Unfolds a handler down to the world it produces. *)
Ltac run_handler :=
  unfold exec, handleSubmit, handleSubmit_settled, handlePDFUpload,
    handleFigureUpload, handleDownload, when, try_catch, await, throw, hooks,
    emit, log, send, URL_createObjectURL, setArticleType, setPdfFile, setFigures,
    setConversionState, setDownloadUrl, setValidationErrors, update,
    response_json, response_blob;
  unfold mbind, mret, M_bind, M_ret, Outcome_bind, Outcome_ret; simpl.

Section Properties.

Context `{Platform}.

Implicit Types (w : World) (s : Session) (a : App).

(** *** Submitting *)

Lemma submit_no_pdf w :
  pdfFile (session w) = None →
  handleSubmit w =
    (Return (),
     {| session := session w;
        effects := effects w ++ [preventDefault; alert "Please select a PDF file first"];
        pending := pending w;
        minted := minted w |}).
Proof.
  intros Hpdf. run_handler. rewrite Hpdf. simpl.
  rewrite <- app_assoc. reflexivity.
Qed.

Lemma submit_with_pdf w pdf :
  pdfFile (session w) = Some pdf →
  handleSubmit w =
    (Return (),
     {| session := with_conversionState converting (session w);
        effects := effects w ++
          [preventDefault;
           fetch "http://localhost:5000/convert" "POST" (form_of pdf (session w))];
        pending := pending w ++ [form_of pdf (session w)];
        minted := minted w |}).
Proof.
  intros Hpdf. run_handler. rewrite Hpdf. simpl.
  rewrite <- app_assoc. reflexivity.
Qed.

Lemma submit_keeps_converting s :
  conversionState s = converting → with_conversionState converting s = s.
Proof. intros Hc. destruct s; simpl in *. rewrite Hc. reflexivity. Qed.

Lemma disabled_while_converting s :
  conversionState s = converting → submit_disabled s = true.
Proof.
  intros Hc. unfold submit_disabled. rewrite Hc.
  rewrite (bool_decide_eq_true_2 (converting = converting)) by reflexivity.
  apply orb_true_r.
Qed.

(** C5. When [handleSubmit] runs with no PDF selected it prevents the
    form's default action, shows the alert and returns: the hooks keep
    their values, no request is sent (none becomes pending, no [fetch]
    among the effects) and no object URL is made. *)
Theorem handleSubmit_without_pdf_only_alerts w :
  pdfFile (session w) = None →
  handleSubmit w =
    (Return (),
     {| session := session w;
        effects := effects w ++ [preventDefault; alert "Please select a PDF file first"];
        pending := pending w;
        minted := minted w |}).
Proof. apply submit_no_pdf. Qed.

(** C1 (as amended). While the state is [converting] the submit button is
    disabled, so a submit through the form runs no handler: the page,
    with its session, effects and pending requests, stays as it is.
    [handleSubmit] has no guard of its own on the state: when it does run
    while [converting] with a PDF selected, it leaves every hook as it is
    (the state stays [converting]) and sends one more request. *)
Theorem submit_while_converting a :
  conversionState (session (world a)) = converting →
  submit_disabled (session (world a)) = true
  ∧ step a submit = a
  ∧ ∀ pdf, pdfFile (session (world a)) = Some pdf →
      handleSubmit (world a) =
        (Return (),
         {| session := session (world a);
            effects := effects (world a) ++
              [preventDefault;
               fetch "http://localhost:5000/convert" "POST"
                 (form_of pdf (session (world a)))];
            pending := pending (world a) ++ [form_of pdf (session (world a))];
            minted := minted (world a) |}).
Proof.
  intros Hc. pose proof (disabled_while_converting _ Hc) as Hd.
  split; [exact Hd|]. split.
  - simpl. rewrite Hd. reflexivity.
  - intros pdf Hpdf. rewrite (submit_with_pdf _ pdf Hpdf).
    rewrite (submit_keeps_converting _ Hc). reflexivity.
Qed.

(** *** Selecting the PDF *)

(** C3. Whatever the session was, handing [handlePDFUpload] a file of
    type [application/pdf] (or an array that starts with one) stores that
    file as the PDF, sets the state to [idle], the download URL to [null]
    and the validation errors to the empty array; the article type and
    the figures stay, and nothing else happens. *)
Theorem handlePDFUpload_pdf_resets w file f :
  file = upload_file f ∨ (∃ rest, file = upload_array (f :: rest)) →
  type f = "application/pdf" →
  handlePDFUpload file w =
    (Return (),
     {| session :=
          {| articleType := articleType (session w);
             pdfFile := Some f;
             figures := figures (session w);
             conversionState := idle;
             downloadUrl := None;
             validationErrors := JArray [] |};
        effects := effects w; pending := pending w; minted := minted w |}).
Proof.
  intros [-> | [rest ->]] Ht; run_handler; rewrite Ht; reflexivity.
Qed.

(** C10. Handing [handlePDFUpload] a file whose type is not
    [application/pdf], an array whose first element is no such file (or
    which is empty), or nothing at all, only shows the alert: the stored
    PDF, the state, the download URL, the validation errors, the figures
    and the article type keep their values, and no request is sent. *)
Theorem handlePDFUpload_rejects_other_types w file :
  match file with
  | upload_undefined => True
  | upload_file f => type f ≠ "application/pdf"
  | upload_array fs => ∀ f, head fs = Some f → type f ≠ "application/pdf"
  end →
  handlePDFUpload file w =
    (Return (),
     {| session := session w;
        effects := effects w ++ [alert "Please upload a PDF file"];
        pending := pending w; minted := minted w |}).
Proof.
  intros Hfile. unfold handlePDFUpload.
  destruct file as [| f | [| f rest]]; simpl.
  - reflexivity.
  - apply String.eqb_neq in Hfile. rewrite Hfile. reflexivity.
  - reflexivity.
  - specialize (Hfile f eq_refl). apply String.eqb_neq in Hfile.
    rewrite Hfile. reflexivity.
Qed.

(** *** Adding figures *)

Lemma handleFigureUpload_appends w fs :
  handleFigureUpload (upload_array fs) w =
    (Return (),
     {| session := with_figures (figures (session w) ++ (Some <$> fs)) (session w);
        effects := effects w; pending := pending w; minted := minted w |}).
Proof. reflexivity. Qed.

Lemma add_figures_step a by_drop fs :
  files (figuresZone (step a (add_figures by_drop fs)))
    = files (figuresZone a) ++ (Some <$> fs)
  ∧ figures (session (world (step a (add_figures by_drop fs))))
    = figures (session (world a)) ++ (Some <$> fs).
Proof. destruct by_drop; split; reflexivity. Qed.

(** C8. In multiple mode a drop and a selection both append the new
    files, in order, to the zone's own list and call [onFileUpload] with
    an array of just the new files; [handleFigureUpload] appends that
    array to the figures.  So on the page each drop or selection on the
    figures zone extends both lists by the new files and keeps what was
    there, and adding [F] and then [G] leaves the figures ending in
    [F; G]. *)
Theorem figures_are_appended :
  (∀ (z : DropZone) fs,
      files (zone (handleDrop true fs z)) = files z ++ (Some <$> fs)
      ∧ onFileUpload (handleDrop true fs z) = Some (upload_array fs)
      ∧ files (zone (handleChange true fs z)) = files z ++ (Some <$> fs)
      ∧ onFileUpload (handleChange true fs z) = Some (upload_array fs))
  ∧ (∀ w fs,
      handleFigureUpload (upload_array fs) w =
        (Return (),
         {| session := with_figures (figures (session w) ++ (Some <$> fs)) (session w);
            effects := effects w; pending := pending w; minted := minted w |}))
  ∧ (∀ a by_drop fs,
      files (figuresZone (step a (add_figures by_drop fs)))
        = files (figuresZone a) ++ (Some <$> fs)
      ∧ figures (session (world (step a (add_figures by_drop fs))))
        = figures (session (world a)) ++ (Some <$> fs))
  ∧ (∀ a by_drop1 by_drop2 F G,
      figures (session (world
        (run a [add_figures by_drop1 [F]; add_figures by_drop2 [G]])))
      = figures (session (world a)) ++ [Some F; Some G]).
Proof.
  split; [|split; [|split]].
  - intros z fs. repeat split.
  - intros w fs. apply handleFigureUpload_appends.
  - intros a by_drop fs. apply add_figures_step.
  - intros a by_drop1 by_drop2 F G. simpl.
    destruct (add_figures_step (step a (add_figures by_drop1 [F])) by_drop2 [G])
      as [_ ->].
    destruct (add_figures_step a by_drop1 [F]) as [_ ->].
    rewrite <- app_assoc. reflexivity.
Qed.

(** *** When the request has settled *)

(** The world the [catch] block leaves: the error is logged and shown,
    the state is [idle], and nothing else has changed. *)
Lemma caught w (m : M unit) e w' :
  m w = (Throw e, w') →
  try_catch m (λ error,
    emit (console_error "Conversion error:" error);;
    emit (alert ("Error: " +:+ message error));;
    setConversionState idle) w =
  (Return (),
   {| session := with_conversionState idle (session w');
      effects := effects w' ++
        [console_error "Conversion error:" e; alert ("Error: " +:+ message e)];
      pending := pending w'; minted := minted w' |}).
Proof.
  intros Hm. unfold try_catch. rewrite Hm. run_handler.
  rewrite <- app_assoc. reflexivity.
Qed.

(** C9. When the response is OK but [JSZip.loadAsync] rejects its body,
    or the archive has a [validation_report.json] whose text
    [JSON.parse] rejects, the [catch] block runs: the error is logged, an
    alert with its message is shown and the state becomes [idle]; the
    other hooks (the download URL among them) keep their values and no
    object URL is created. *)
Theorem malformed_archive_reverts_to_idle w r bytes e :
  ok r = true →
  body r = Return bytes →
  JSZip_loadAsync bytes = Throw e
  ∨ (∃ zip entry text,
        JSZip_loadAsync bytes = Return zip
        ∧ zip_file zip "validation_report.json" = Some entry
        ∧ async_string entry = Return text
        ∧ JSON_parse text = Throw e) →
  handleSubmit_settled (Return r) w =
    (Return (),
     {| session := with_conversionState idle (session w);
        effects := effects w ++
          [console_error "Conversion error:" e; alert ("Error: " +:+ message e)];
        pending := pending w; minted := minted w |}).
Proof.
  intros Hok Hbody Hbad. unfold handleSubmit_settled.
  apply caught. run_handler. rewrite Hok, Hbody. simpl.
  destruct Hbad as [-> | (zip & entry & text & -> & -> & -> & ->)];
    reflexivity.
Qed.

Lemma not_ok_is_caught w r :
  ok r = false →
  handleSubmit_settled (Return r) w =
    (Return (),
     {| session := with_conversionState idle (session w);
        effects := effects w ++
          [console_error "Conversion error:" (failure_of r);
           alert ("Error: " +:+ message (failure_of r))];
        pending := pending w; minted := minted w |}).
Proof.
  intros Hok. unfold handleSubmit_settled. apply caught.
  unfold failure_of, when, try_catch, await, throw.
  unfold mbind, mret, M_bind, M_ret. simpl. rewrite Hok. simpl.
  destruct (response_json r) as [data | e']; [|reflexivity].
  destruct (get_property data "error") as [error | e']; reflexivity.
Qed.

(** C4 (as amended). For every response that is not OK the [catch] block
    runs: the state becomes [idle], the other hooks keep their values, no
    object URL is created, and the alert reads ["Error: "] followed by
    the message of the error.  That message is ["Conversion failed"]
    when the body cannot be read or parsed as JSON, when it parses to a
    value other than [null] that has no [error] property, and when the
    [error] property is the empty string; it is the [error] property
    when that is a non-empty string. *)
Theorem failure_response_reverts_to_idle w r :
  ok r = false →
  ∃ e,
    handleSubmit_settled (Return r) w =
      (Return (),
       {| session := with_conversionState idle (session w);
          effects := effects w ++
            [console_error "Conversion error:" e; alert ("Error: " +:+ message e)];
          pending := pending w; minted := minted w |})
    ∧ ((∃ e', response_json r = Throw e') → message e = "Conversion failed")
    ∧ (∀ data, response_json r = Return data →
         data ≠ JNull → (∀ properties, data ≠ JObject properties) →
         message e = "Conversion failed")
    ∧ (∀ properties, response_json r = Return (JObject properties) →
         assoc "error" properties = None
         ∨ assoc "error" properties = Some (JString "") →
         message e = "Conversion failed")
    ∧ (∀ properties m, response_json r = Return (JObject properties) →
         assoc "error" properties = Some (JString m) → m ≠ "" →
         message e = m).
Proof.
  intros Hok. exists (failure_of r). split; [apply not_ok_is_caught, Hok|].
  unfold failure_of. repeat split.
  - intros [e' ->]. reflexivity.
  - intros data -> Hnull Hobj.
    destruct data; simpl; try reflexivity; [congruence | exfalso; eapply Hobj; eauto].
  - intros properties -> Herror. simpl. destruct Herror as [-> | ->]; reflexivity.
  - intros properties m -> Herror Hm. simpl. rewrite Herror. simpl.
    apply String.eqb_neq in Hm. rewrite Hm. reflexivity.
Qed.


(** *** Downloading *)

(** Where the PDF's name is a stem without a dot followed by [.pdf], the
    archive's name is that stem followed by [.zip]. *)
Lemma String_replace_plain_stem stem :
  (∀ c, In c (String.list_ascii_of_string stem) → c ≠ Ascii.ascii_of_nat 46) →
  String_replace ".pdf" "" (stem +:+ ".pdf") = stem.
Proof.
  induction stem as [| c stem IH]; intros Hdots.
  - reflexivity.
  - change (String c stem +:+ ".pdf") with (String c (stem +:+ ".pdf")).
    unfold String_replace; fold String_replace.
    assert (Hc : c ≠ Ascii.ascii_of_nat 46) by (apply Hdots; left; reflexivity).
    assert (Hprefix : String.prefix ".pdf" (String c (stem +:+ ".pdf")) = false).
    { cbn [String.prefix].
      destruct (Ascii.ascii_dec _ c) as [Heq |]; [|reflexivity].
      exfalso. apply Hc. symmetry. exact Heq. }
    rewrite Hprefix. f_equal. apply IH.
    intros c' Hin. apply Hdots. right. exact Hin.
Qed.

Lemma zip_name_plain_stem stem t :
  (∀ c, In c (String.list_ascii_of_string stem) → c ≠ Ascii.ascii_of_nat 46) →
  zip_name {| name := stem +:+ ".pdf"; type := t |} = stem +:+ ".zip".
Proof.
  intros Hdots. unfold zip_name. simpl.
  rewrite String_replace_plain_stem by exact Hdots. reflexivity.
Qed.

Lemma settled_completed_has_url fetched w :
  conversionState (session (exec (handleSubmit_settled fetched) w)) = completed →
  is_Some (downloadUrl (session (exec (handleSubmit_settled fetched) w))).
Proof.
  run_handler. repeat (case_match; simpl in *; simplify_eq; simpl);
    try discriminate; eauto.
Qed.

Lemma step_completed_has_url a e :
  completed_has_url a → completed_has_url (step a e).
Proof.
  unfold completed_has_url. intros Ha.
  destruct e as [z t | z fs | z fs | v | | i fetched | ]; simpl.
  - destruct z; exact Ha.
  - destruct z; simpl; [|exact Ha].
    unfold handlePDFUpload, uploaded. run_handler.
    repeat (case_match; simpl in *; simplify_eq; simpl); try discriminate; exact Ha.
  - destruct z; simpl; [|exact Ha].
    unfold handlePDFUpload, uploaded. run_handler.
    repeat (case_match; simpl in *; simplify_eq; simpl); try discriminate; exact Ha.
  - exact Ha.
  - destruct (submit_disabled _); [exact Ha|]. simpl. run_handler.
    destruct (pdfFile _); simpl; [discriminate | exact Ha].
  - destruct (pending (world a) !! i); [|exact Ha]. simpl.
    apply settled_completed_has_url.
  - destruct (SuccessDownload _) as [[filename |] | e]; [|exact Ha | exact Ha].
    simpl. run_handler.
    case_eq (downloadUrl (session (world a))); simpl; [intros url Hurl | intros _; exact Ha].
    case_eq (pdfFile (session (world a))); simpl; [discriminate | intros _; exact Ha].
Qed.

Lemma reachable_completed_has_url a : reachable a → completed_has_url a.
Proof.
  intros [es ->]. induction es as [| e es IH] using rev_ind.
  - intros Hc. discriminate.
  - unfold run. rewrite foldl_app. simpl. apply step_completed_has_url, IH.
Qed.

(** The download button is on the page only in the [completed] state, with
    a download URL held and a PDF selected. *)
Lemma SuccessDownload_rendered s filename :
  SuccessDownload s = Return (Some filename) →
  conversionState s = completed
  ∧ is_Some (downloadUrl s)
  ∧ ∃ pdf, pdfFile s = Some pdf ∧ filename = zip_name pdf.
Proof.
  unfold SuccessDownload. intros Hshown.
  destruct (bool_decide (conversionState s = completed)) eqn:Hc; [|discriminate].
  destruct (bool_decide (is_Some (downloadUrl s))) eqn:Hu; [|discriminate].
  apply bool_decide_eq_true_1 in Hc, Hu. simpl in Hshown.
  destruct (pdfFile s) as [pdf |]; [|discriminate].
  injection Hshown as <-. eauto.
Qed.

(** C6. On a page the events have led to, in the [completed] state with
    the PDF still selected (the download button is rendered with the PDF's
    name, so it is on the page only then), the download URL is held and
    the button is there; a click on it saves the held URL under the
    archive's name and resets the session: the state becomes [idle], the
    PDF [null], the figures empty, the download URL [null] and the
    validation errors empty.  A submit after that is a no-op: the button
    is disabled, and [handleSubmit] itself would only alert. *)
Theorem download_resets_session a pdf :
  reachable a →
  conversionState (session (world a)) = completed →
  pdfFile (session (world a)) = Some pdf →
  ∃ url,
    downloadUrl (session (world a)) = Some url
    ∧ SuccessDownload (session (world a)) = Return (Some (zip_name pdf))
    ∧ step a download =
        {| pdfZone := pdfZone a; figuresZone := figuresZone a;
           world :=
             {| session :=
                  {| articleType := articleType (session (world a));
                     pdfFile := None;
                     figures := [];
                     conversionState := idle;
                     downloadUrl := None;
                     validationErrors := JArray [] |};
                effects := effects (world a) ++ [save_link url (zip_name pdf)];
                pending := pending (world a);
                minted := minted (world a) |} |}
    ∧ step (step a download) submit = step a download
    ∧ handleSubmit (world (step a download)) =
        (Return (),
         {| session := session (world (step a download));
            effects := effects (world (step a download)) ++
              [preventDefault; alert "Please select a PDF file first"];
            pending := pending (world (step a download));
            minted := minted (world (step a download)) |}).
Proof.
  intros Hreach Hc Hpdf.
  destruct (reachable_completed_has_url a Hreach Hc) as [url Hurl].
  exists url. split; [exact Hurl|].
  assert (Hshown : SuccessDownload (session (world a)) = Return (Some (zip_name pdf))).
  { unfold SuccessDownload. rewrite Hc, Hurl, Hpdf.
    rewrite !bool_decide_eq_true_2 by eauto. reflexivity. }
  split; [exact Hshown|].
  assert (Hstep : step a download =
    {| pdfZone := pdfZone a; figuresZone := figuresZone a;
       world :=
         {| session :=
              {| articleType := articleType (session (world a));
                 pdfFile := None; figures := []; conversionState := idle;
                 downloadUrl := None; validationErrors := JArray [] |};
            effects := effects (world a) ++ [save_link url (zip_name pdf)];
            pending := pending (world a);
            minted := minted (world a) |} |}).
  { simpl. rewrite Hshown. unfold in_world. run_handler.
    rewrite Hurl, Hpdf. reflexivity. }
  split; [exact Hstep|]. split.
  - rewrite Hstep. simpl. reflexivity.
  - apply submit_no_pdf. rewrite Hstep. reflexivity.
Qed.

End Properties.

(** ** Further properties of the components *)

Section Behaviour.

Context `{Platform}.

Implicit Types (w : World) (s : Session) (a : App) (z : DropZone).

(** *** The settled request, whatever the answer *)

(** An OK archive without a report: the converted world, errors kept. *)
Lemma success_settled_without_report w r bytes zip :
  ok r = true → body r = Return bytes → JSZip_loadAsync bytes = Return zip →
  zip_file zip "validation_report.json" = None →
  handleSubmit_settled (Return r) w
  = (Return (), converted bytes (validationErrors (session w)) w).
Proof.
  intros Hok Hbody Hzip Hentry. run_handler.
  rewrite Hok, Hbody. simpl. rewrite Hzip, Hentry. reflexivity.
Qed.

(** A rejected fetch: the [catch] block with that error. *)
Lemma fetch_rejected_is_caught w e :
  handleSubmit_settled (Throw e) w = (Return (), reverted e w).
Proof. unfold reverted. run_handler. rewrite <- app_assoc. reflexivity. Qed.

(** The two ways the rest of [handleSubmit] can end. *)
Lemma settled_outcomes fetched w :
  (∃ e, handleSubmit_settled fetched w = (Return (), reverted e w))
  ∨ (∃ r bytes errors,
       fetched = Return r ∧ ok r = true ∧ body r = Return bytes
       ∧ handleSubmit_settled fetched w = (Return (), converted bytes errors w)).
Proof.
  destruct fetched as [r | e].
  - destruct (ok r) eqn:Hok.
    + destruct (body r) as [bytes | e] eqn:Hbody.
      * unfold reverted, converted. run_handler. rewrite Hok, Hbody. simpl.
        repeat (case_match; simpl in *; simplify_eq; simpl);
          first [ left; eexists; rewrite <- app_assoc; simpl; reflexivity
                | right; eexists r, bytes, _; repeat split; eauto ].
      * left. exists e. unfold reverted. run_handler. rewrite Hok, Hbody. simpl.
        rewrite <- app_assoc. reflexivity.
    + left. exists (failure_of r). apply not_ok_is_caught, Hok.
  - left. exists e. apply fetch_rejected_is_caught.
Qed.

(** X1. However the request settles (the fetch rejected, the body
    unreadable, any status, any bytes), the rest of [handleSubmit] returns
    normally and leaves one of two worlds: the one of its [catch] block
    (error logged and shown, state [idle], every other hook, the pending
    requests and the object URLs untouched), or, only for an OK response
    with a readable body, the converted one (state [completed], a fresh
    object URL for that body, PDF and figures untouched).  The state is
    never left [converting]. *)
Theorem settled_reverts_or_converts fetched w :
  ((∃ e, handleSubmit_settled fetched w = (Return (), reverted e w))
   ∨ (∃ r bytes errors,
        fetched = Return r ∧ ok r = true ∧ body r = Return bytes
        ∧ handleSubmit_settled fetched w = (Return (), converted bytes errors w)))
  ∧ conversionState (session (exec (handleSubmit_settled fetched) w)) ≠ converting.
Proof.
  split; [apply settled_outcomes|]. unfold exec.
  destruct (settled_outcomes fetched w)
    as [[e ->] | (r & bytes & errors & _ & _ & _ & ->)]; simpl; discriminate.
Qed.

(** *** What every page keeps *)

Lemma reachable_invariant (P : App → Prop) :
  P initial_App → (∀ a e, P a → P (step a e)) → ∀ a, reachable a → P a.
Proof.
  intros Hinit Hstep a [es ->].
  induction es as [| e es IH] using rev_ind; [exact Hinit|].
  unfold run. rewrite foldl_app. simpl. apply Hstep, IH.
Qed.

Lemma form_of_conversion_form pdf s :
  type pdf = "application/pdf" → Forall is_Some (figures s) →
  conversion_form (form_of pdf s).
Proof.
  intros Htype Hfigs. unfold conversion_form, form_of.
  assert (Hfields : ∃ figs, figure_field <$> figures s
                            = (λ f, ("figures", form_file f)) <$> figs).
  { induction Hfigs as [| fig rest [f ->] _ [figs IH]].
    - exists []. reflexivity.
    - exists (f :: figs). rewrite !fmap_cons. f_equal. exact IH. }
  destruct Hfields as [figs Hfields].
  exists pdf, (articleType s), figs. rewrite Hfields. split; [exact Htype | reflexivity].
Qed.

Lemma is_Some_fmap_Some (fs : list File) : Forall is_Some (Some <$> fs).
Proof. induction fs; constructor; eauto. Qed.

Lemma step_page_ok a e : page_ok a → page_ok (step a e).
Proof.
  intros (Hpdf & Hfigs & Hsent & Hpending & Hsuffix & Hzone & Hone).
  destruct e as [z t | z fs | z fs | v | | i fetched | ].
  - (* drag *)
    destruct z; simpl; (repeat split; try assumption);
      try (apply Forall_app; split; [assumption | repeat constructor]);
      unfold handleDrag; simpl; repeat case_match; simpl; assumption.
  - (* drop *)
    destruct z; simpl.
    + unfold handlePDFUpload, uploaded. run_handler.
      destruct fs as [| f rest]; simpl.
      * repeat split; try assumption; try (simpl; lia).
        rewrite <- app_assoc. apply Forall_app; split; [assumption | repeat constructor].
      * destruct (String.eqb (type f) "application/pdf") eqn:Htype; simpl.
        -- apply String.eqb_eq in Htype. rewrite Htype. simpl.
           repeat split; try assumption; try (simpl; lia).
           ++ intros pdf [= <-]. exact Htype.
           ++ apply Forall_app; split; [assumption | repeat constructor].
        -- repeat split; try assumption; try (simpl; lia).
           rewrite <- app_assoc.
           apply Forall_app; split; [assumption | repeat constructor].
    + repeat split; try assumption.
      * apply Forall_app; split; [assumption | apply is_Some_fmap_Some].
      * apply Forall_app; split; [assumption | repeat constructor].
      * apply suffix_app, Hsuffix.
      * apply Forall_app; split; [assumption | apply is_Some_fmap_Some].
  - (* change *)
    destruct z; simpl.
    + unfold handlePDFUpload, uploaded. run_handler.
      destruct fs as [| f rest]; simpl.
      * repeat split; try assumption; try (simpl; lia).
        rewrite app_nil_r.
        apply Forall_app; split; [assumption | repeat constructor].
      * destruct (String.eqb (type f) "application/pdf") eqn:Htype; simpl.
        -- apply String.eqb_eq in Htype. rewrite Htype. simpl.
           repeat split; try assumption; try (simpl; lia).
           ++ intros pdf [= <-]. exact Htype.
           ++ rewrite app_nil_r. assumption.
        -- repeat split; try assumption; try (simpl; lia).
           rewrite app_nil_r.
           apply Forall_app; split; [assumption | repeat constructor].
    + repeat split; try assumption.
      * apply Forall_app; split; [assumption | apply is_Some_fmap_Some].
      * run_handler. rewrite app_nil_r. assumption.
      * apply suffix_app, Hsuffix.
      * apply Forall_app; split; [assumption | apply is_Some_fmap_Some].
  - (* select_articleType *)
    repeat split; assumption.
  - (* submit *)
    simpl. destruct (submit_disabled _); [repeat split; assumption|].
    unfold in_world. simpl.
    destruct (pdfFile (session (world a))) as [pdf |] eqn:Hsel.
    + unfold exec. rewrite (submit_with_pdf _ pdf Hsel). simpl.
      assert (Hform : conversion_form (form_of pdf (session (world a)))).
      { apply form_of_conversion_form; [apply Hpdf; reflexivity | exact Hfigs]. }
      repeat split; try assumption.
      * simpl; first [exact Hpdf | rewrite Hsel; exact Hpdf].
      * apply Forall_app; split; [assumption|].
        repeat constructor. exact Hform.
      * apply Forall_app; split; [assumption | repeat constructor; exact Hform].
    + unfold exec. rewrite (submit_no_pdf _ Hsel). simpl.
      repeat split; try assumption.
      * simpl; first [exact Hpdf | rewrite Hsel; exact Hpdf].
      * apply Forall_app; split; [assumption | repeat constructor].
  - (* settle *)
    simpl. destruct (pending (world a) !! i); [|repeat split; assumption].
    unfold in_world, exec. simpl.
    destruct (settled_outcomes fetched (settled i (world a)))
      as [[e ->] | (r & bytes & errors & _ & _ & _ & ->)]; simpl.
    + repeat split; try assumption.
      * apply Forall_app; split; [assumption | repeat constructor].
      * apply Forall_delete, Hpending.
    + repeat split; try assumption.
      * apply Forall_app; split; [assumption | repeat constructor].
      * apply Forall_delete, Hpending.
  - (* download *)
    simpl. destruct (SuccessDownload _) as [[filename |] | e];
      [| repeat split; assumption | repeat split; assumption].
    unfold in_world. simpl. run_handler.
    destruct (downloadUrl (session (world a))) as [url |]; simpl;
      [| repeat split; assumption].
    destruct (pdfFile (session (world a))) as [pdf |] eqn:Hsel; simpl.
    + repeat split; try assumption.
      * intros pdf' [=].
      * constructor.
      * apply Forall_app; split; [assumption | repeat constructor].
      * apply suffix_nil.
    + repeat split; try assumption. simpl; first [exact Hpdf | rewrite Hsel; exact Hpdf].
Qed.

Lemma reachable_page_ok a : reachable a → page_ok a.
Proof.
  apply reachable_invariant; [| apply step_page_ok].
  split; [intros pdf [=]|]. simpl.
  split; [constructor|]. split; [constructor|]. split; [constructor|].
  split; [reflexivity|]. split; [constructor | lia].
Qed.

Lemma names_of_files (fs : list File) : names_of (Some <$> fs) = Some (name <$> fs).
Proof.
  unfold names_of. induction fs as [| f fs IH]; [reflexivity|].
  rewrite !fmap_cons. simpl. rewrite IH. reflexivity.
Qed.

Lemma all_files (l : list (option File)) :
  Forall is_Some l → ∃ fs, l = Some <$> fs.
Proof.
  induction 1 as [| x l [f ->] _ [fs ->]].
  - exists []. reflexivity.
  - exists (f :: fs). reflexivity.
Qed.

(** X2. Every request a page has ever sent, and every request still
    pending, is a POST to the conversion endpoint whose form holds, in this
    order, the PDF (a file of type [application/pdf]), the article type,
    and one file per figure. *)
Theorem requests_are_conversion_requests a :
  reachable a →
  Forall conversion_request (effects (world a))
  ∧ Forall conversion_form (pending (world a)).
Proof.
  intros Hreach. destruct (reachable_page_ok a Hreach) as (_ & _ & Hsent & Hpending & _).
  split; assumption.
Qed.

(** X3. On every page the events lead to, the stored PDF (if any) has the
    type [application/pdf] and every figure is a file, never [undefined]:
    the list of figure names renders, one name per figure. *)
Theorem stored_uploads_are_files a :
  reachable a →
  (∀ pdf, pdfFile (session (world a)) = Some pdf → type pdf = "application/pdf")
  ∧ ∃ figs, figures (session (world a)) = Some <$> figs
            ∧ figure_list (session (world a)) = Some (name <$> figs).
Proof.
  intros Hreach. destruct (reachable_page_ok a Hreach) as (Hpdf & Hfigs & _).
  split; [exact Hpdf|].
  destruct (all_files _ Hfigs) as [figs Heq]. exists figs. split; [exact Heq|].
  unfold figure_list. rewrite Heq. apply names_of_files.
Qed.

(** X4. The figures zone never forgets a file: the session's figures are
    always the last entries of the zone's own list, and the zone's names
    render.  The zone's list may hold more: a download empties the
    session's figures and leaves the zone's list as it is. *)
Theorem figures_zone_keeps_its_list a :
  reachable a →
  (∃ earlier, files (figuresZone a) = earlier ++ figures (session (world a)))
  ∧ is_Some (DropZone_names (figuresZone a))
  ∧ ∀ filename, SuccessDownload (session (world a)) = Return (Some filename) →
      figures (session (world (step a download))) = []
      ∧ files (figuresZone (step a download)) = files (figuresZone a).
Proof.
  intros Hreach.
  destruct (reachable_page_ok a Hreach) as (_ & _ & _ & _ & Hsuffix & Hzone & _).
  split; [exact Hsuffix|]. split.
  - destruct (all_files _ Hzone) as [fs Heq]. unfold DropZone_names.
    rewrite Heq, names_of_files. eauto.
  - intros filename Hshown.
    destruct (SuccessDownload_rendered _ _ Hshown) as (_ & [url Hurl] & pdf & Hpdf & _).
    simpl. rewrite Hshown. unfold in_world. simpl. run_handler.
    rewrite Hurl, Hpdf. split; reflexivity.
Qed.

(** X5. The PDF zone lists at most one entry on every page the events
    lead to: its text is the invitation or [1 file selected]. *)
Theorem pdf_zone_lists_one_entry a :
  reachable a →
  length (files (pdfZone a)) ≤ 1
  ∧ (DropZone_label false (pdfZone a) = "Click or drag a file to upload"
     ∨ DropZone_label false (pdfZone a) = "1 file selected").
Proof.
  intros Hreach.
  destruct (reachable_page_ok a Hreach) as (_ & _ & _ & _ & _ & _ & Hone).
  split; [exact Hone|]. unfold DropZone_label.
  destruct (files (pdfZone a)) as [| x [| y l]]; simpl in *.
  - left. reflexivity.
  - right. reflexivity.
  - lia.
Qed.

(** *** The PDF zone and the session *)

(** X6. Of several files dropped on, or selected in, the PDF zone only the
    first counts: the page is the one the first file alone leads to. *)
Theorem pdf_zone_takes_first_file a by_drop f rest :
  step a (choose by_drop pdf_zone (f :: rest))
  = step a (choose by_drop pdf_zone [f]).
Proof. destruct by_drop; reflexivity. Qed.

(** X7. A selection that comes back empty on the PDF zone (the dialog was
    dismissed) is passed on as [undefined]: the session only alerts and
    keeps its hooks, while the zone replaces its list by one [undefined]
    entry, reads [1 file selected], and throws when it renders the names. *)
Theorem empty_selection_on_pdf_zone a :
  files (pdfZone (step a (change pdf_zone []))) = [None]
  ∧ session (world (step a (change pdf_zone []))) = session (world a)
  ∧ effects (world (step a (change pdf_zone [])))
    = effects (world a) ++ [alert "Please upload a PDF file"]
  ∧ pending (world (step a (change pdf_zone []))) = pending (world a)
  ∧ DropZone_label false (pdfZone (step a (change pdf_zone []))) = "1 file selected"
  ∧ DropZone_names (pdfZone (step a (change pdf_zone []))) = None.
Proof.
  repeat split. simpl. run_handler. rewrite app_nil_r. reflexivity.
Qed.

(** X8. An empty selection on the figures zone changes nothing at all. *)
Theorem empty_selection_on_figures_zone a :
  step a (change figures_zone []) = a.
Proof.
  destruct a as [pz [dragging fs] [[t pdf figs state url errors] es ps n]].
  simpl. unfold in_zone. simpl. run_handler. rewrite !app_nil_r. reflexivity.
Qed.

(** X9. A file of another type given to the PDF zone is refused by the
    session, which alerts and keeps all its hooks (the PDF selected before
    stays selected), yet the zone lists the refused file as its selection. *)
Theorem refused_file_is_listed a by_drop f rest :
  type f ≠ "application/pdf" →
  files (pdfZone (step a (choose by_drop pdf_zone (f :: rest)))) = [Some f]
  ∧ DropZone_names (pdfZone (step a (choose by_drop pdf_zone (f :: rest))))
    = Some [name f]
  ∧ session (world (step a (choose by_drop pdf_zone (f :: rest)))) = session (world a)
  ∧ last (effects (world (step a (choose by_drop pdf_zone (f :: rest)))))
    = Some (alert "Please upload a PDF file").
Proof.
  intros Htype. apply String.eqb_neq in Htype.
  destruct by_drop; simpl; unfold in_zone; simpl; unfold handlePDFUpload; simpl;
    rewrite Htype; simpl; run_handler; (repeat split); apply last_snoc.
Qed.

(** *** The name of the archive *)

Lemma String_length_app (s1 s2 : string) :
  String.length (s1 +:+ s2) = String.length s1 + String.length s2.
Proof. induction s1 as [| c s1 IH]; simpl; [reflexivity | f_equal; exact IH]. Qed.

Lemma String_prefix_app (p rest : string) : String.prefix p (p +:+ rest) = true.
Proof.
  induction p as [| c p IH]; simpl; [destruct rest; reflexivity|].
  destruct (Ascii.ascii_dec c c) as [_ | Hne]; [exact IH | contradiction].
Qed.

Lemma String_substring_all (s : string) : String.substring 0 (String.length s) s = s.
Proof. induction s as [| c s IH]; simpl; [reflexivity | f_equal; exact IH]. Qed.

Lemma String_substring_after (p rest : string) :
  String.substring (String.length p) (String.length rest) (p +:+ rest) = rest.
Proof. induction p as [| c p IH]; simpl; [apply String_substring_all | exact IH]. Qed.

Lemma String_app_assoc (s1 s2 s3 : string) : (s1 +:+ s2) +:+ s3 = s1 +:+ s2 +:+ s3.
Proof.
  induction s1 as [| c s1 IH]; [reflexivity|].
  change (String c ((s1 +:+ s2) +:+ s3) = String c (s1 +:+ s2 +:+ s3)).
  f_equal. exact IH.
Qed.

Lemma String_replace_unfold pattern replacement str :
  String_replace pattern replacement str =
    if String.prefix pattern str
    then replacement +:+ String.substring (String.length pattern)
                           (String.length str - String.length pattern) str
    else match str with
         | EmptyString => EmptyString
         | String c rest => String c (String_replace pattern replacement rest)
         end.
Proof. destruct str; reflexivity. Qed.

(** [replace] acts on the first place where the pattern starts. *)
Lemma String_replace_first pattern replacement pre post :
  (∀ u v, pre = u +:+ v → v ≠ "" →
     String.prefix pattern (v +:+ pattern +:+ post) = false) →
  String_replace pattern replacement (pre +:+ pattern +:+ post)
  = pre +:+ replacement +:+ post.
Proof.
  induction pre as [| c pre IH]; intros Hfirst.
  - change ("" +:+ pattern +:+ post) with (pattern +:+ post).
    rewrite String_replace_unfold, String_prefix_app, String_length_app.
    replace (String.length pattern + String.length post - String.length pattern)
      with (String.length post) by lia.
    rewrite String_substring_after. reflexivity.
  - change (String c pre +:+ pattern +:+ post)
      with (String c (pre +:+ pattern +:+ post)).
    rewrite String_replace_unfold.
    assert (Hhead : String.prefix pattern (String c (pre +:+ pattern +:+ post)) = false).
    { apply (Hfirst "" (String c pre)); [reflexivity | discriminate]. }
    rewrite Hhead.
    change (String c pre +:+ replacement +:+ post)
      with (String c (pre +:+ replacement +:+ post)).
    f_equal. apply IH. intros u v -> Hv.
    apply (Hfirst (String c u) v); [reflexivity | exact Hv].
Qed.

(** Without the pattern the string stays. *)
Lemma String_replace_absent pattern replacement str :
  (∀ u v, str = u +:+ v → String.prefix pattern v = false) →
  String_replace pattern replacement str = str.
Proof.
  induction str as [| c str IH]; intros Habsent.
  - rewrite String_replace_unfold, (Habsent "" "" eq_refl). reflexivity.
  - rewrite String_replace_unfold, (Habsent "" (String c str) eq_refl).
    f_equal. apply IH. intros u v ->. apply (Habsent (String c u) v). reflexivity.
Qed.

(** X10. The archive's name is the PDF's name with the first [.pdf] in it
    taken out, wherever that is, and [.zip] put at the end; a name without
    [.pdf] only gets [.zip] appended. *)
Theorem zip_name_takes_out_first_pdf (pdf : File) :
  (∀ pre post,
      name pdf = pre +:+ ".pdf" +:+ post →
      (∀ u v, pre = u +:+ v → v ≠ "" →
         String.prefix ".pdf" (v +:+ ".pdf" +:+ post) = false) →
      zip_name pdf = pre +:+ post +:+ ".zip")
  ∧ ((∀ u v, name pdf = u +:+ v → String.prefix ".pdf" v = false) →
     zip_name pdf = name pdf +:+ ".zip").
Proof.
  unfold zip_name. split.
  - intros pre post -> Hfirst.
    rewrite (String_replace_first ".pdf" "" pre post Hfirst).
    change ("" +:+ post) with post. apply String_app_assoc.
  - intros Habsent. rewrite (String_replace_absent ".pdf" "" _ Habsent). reflexivity.
Qed.

(** *** Downloading, again *)

Lemma download_without_panel a :
  conversionState (session (world a)) ≠ completed → step a download = a.
Proof.
  intros Hstate. simpl. unfold SuccessDownload.
  rewrite (bool_decide_eq_false_2 _ Hstate). reflexivity.
Qed.

(** X11. A click on download acts only through the panel: outside the
    [completed] state it changes nothing, and right after a download a
    second one changes nothing either (nothing is saved twice). *)
Theorem download_acts_once a :
  (conversionState (session (world a)) ≠ completed → step a download = a)
  ∧ step (step a download) download = step a download.
Proof.
  split; [apply download_without_panel|].
  destruct (SuccessDownload (session (world a))) as [[filename |] | e] eqn:Hshown.
  - apply download_without_panel.
    destruct (SuccessDownload_rendered _ _ Hshown) as (_ & [url Hurl] & pdf & Hpdf & _).
    simpl. rewrite Hshown. unfold in_world. simpl. run_handler.
    rewrite Hurl, Hpdf. simpl. discriminate.
  - assert (Hsame : step a download = a) by (simpl; rewrite Hshown; reflexivity).
    rewrite !Hsame. reflexivity.
  - assert (Hsame : step a download = a) by (simpl; rewrite Hshown; reflexivity).
    rewrite !Hsame. reflexivity.
Qed.

(** *** A PDF selected while a request is pending *)

(** X12. Selecting a PDF does not cancel a pending request: it stays
    pending, while the state goes to [idle] and the submit button is
    enabled.  When that request then settles with an OK archive (here one
    without a report), the session is [completed] with the newly selected
    PDF, and the panel offers the earlier request's archive under the new
    PDF's name. *)
Theorem pending_response_lands_on_new_pdf a i form by_drop f rest r bytes zip :
  pending (world a) !! i = Some form →
  type f = "application/pdf" →
  ok r = true →
  body r = Return bytes →
  JSZip_loadAsync bytes = Return zip →
  zip_file zip "validation_report.json" = None →
  pending (world (step a (choose by_drop pdf_zone (f :: rest)))) = pending (world a)
  ∧ submit_disabled (session (world (step a (choose by_drop pdf_zone (f :: rest)))))
    = false
  ∧ session (world (run a [choose by_drop pdf_zone (f :: rest); settle i (Return r)]))
    = {| articleType := articleType (session (world a));
         pdfFile := Some f;
         figures := figures (session (world a));
         conversionState := completed;
         downloadUrl := Some {| url_id := minted (world a); url_blob := bytes |};
         validationErrors := JArray [] |}
  ∧ SuccessDownload
      (session (world (run a [choose by_drop pdf_zone (f :: rest); settle i (Return r)])))
    = Return (Some (zip_name f)).
Proof.
  intros Hpending Htype Hok Hbody Hzip Hentry.
  assert (Hselect : world (step a (choose by_drop pdf_zone (f :: rest))) =
    {| session :=
         {| articleType := articleType (session (world a)); pdfFile := Some f;
            figures := figures (session (world a)); conversionState := idle;
            downloadUrl := None; validationErrors := JArray [] |};
       effects := effects (world (step a (choose by_drop pdf_zone (f :: rest))));
       pending := pending (world a);
       minted := minted (world a) |}).
  { destruct by_drop; simpl; unfold handlePDFUpload; simpl; rewrite Htype; reflexivity. }
  assert (Hsettled : session
      (world (run a [choose by_drop pdf_zone (f :: rest); settle i (Return r)])) =
    {| articleType := articleType (session (world a)); pdfFile := Some f;
       figures := figures (session (world a)); conversionState := completed;
       downloadUrl := Some {| url_id := minted (world a); url_blob := bytes |};
       validationErrors := JArray [] |}).
  { unfold run. cbn [foldl].
    change (step ?b (settle i (Return r))) with
      (match pending (world b) !! i with
       | Some _ => in_world (λ w, exec (handleSubmit_settled (Return r)) (settled i w)) b
       | None => b
       end).
    rewrite Hselect. cbn [pending]. rewrite Hpending.
    unfold in_world. cbn [world]. rewrite Hselect. unfold exec.
    rewrite (success_settled_without_report _ r bytes zip Hok Hbody Hzip Hentry).
    reflexivity. }
  split; [rewrite Hselect; reflexivity|].
  split; [rewrite Hselect; reflexivity|].
  split; [exact Hsettled|].
  rewrite Hsettled. reflexivity.
Qed.

(** *** Dragging *)

(** X13. A drag event over either zone is presentation only: it is
    prevented and stopped, and the session, the pending requests and the
    lists of both zones stay as they are. *)
Theorem drag_only_highlights a (target : Zone) (t : string) :
  world (step a (drag target t))
  = {| session := session (world a);
       effects := effects (world a) ++ [preventDefault; stopPropagation];
       pending := pending (world a);
       minted := minted (world a) |}
  ∧ files (pdfZone (step a (drag target t))) = files (pdfZone a)
  ∧ files (figuresZone (step a (drag target t))) = files (figuresZone a).
Proof.
  destruct target; simpl; unfold handleDrag; simpl;
    (split; [reflexivity|]); split;
    repeat case_match; reflexivity.
Qed.

(** *** Reports that are not objects, and failures of the network *)

(** X14. When the archive of an OK response has a report whose text is
    the JSON [null], reading [errors] from it throws: the conversion ends
    in the [catch] block (state [idle], no object URL), with the engine's
    message.  A report that parses to anything else that is no object (a
    number, a string, an array) is passed over: the conversion completes
    and the validation errors stay. *)
Theorem report_that_is_no_object w r bytes zip entry text data :
  ok r = true →
  body r = Return bytes →
  JSZip_loadAsync bytes = Return zip →
  zip_file zip "validation_report.json" = Some entry →
  async_string entry = Return text →
  JSON_parse text = Return data →
  (data = JNull →
     handleSubmit_settled (Return r) w
     = (Return (), reverted (Error (TypeError_message "errors")) w))
  ∧ (data ≠ JNull → (∀ properties, data ≠ JObject properties) →
     handleSubmit_settled (Return r) w
     = (Return (), converted bytes (validationErrors (session w)) w)).
Proof.
  intros Hok Hbody Hzip Hentry Htext Hparse. split.
  - intros ->. unfold handleSubmit_settled, reverted. apply caught.
    run_handler. rewrite Hok, Hbody. simpl.
    rewrite Hzip, Hentry, Htext, Hparse. reflexivity.
  - intros Hnull Hobject. run_handler. rewrite Hok, Hbody. simpl.
    rewrite Hzip, Hentry, Htext, Hparse.
    destruct data; simpl; try reflexivity;
      [congruence | exfalso; eapply Hobject; eauto].
Qed.

(** X15. When the fetch itself is rejected, or the body of an OK response
    cannot be read, the thrown error is the one shown: its message after
    ["Error: "], state [idle].  When the body of a response that is not OK
    cannot be read, the message is the generic one. *)
Theorem network_failure_is_shown w e :
  handleSubmit_settled (Throw e) w = (Return (), reverted e w)
  ∧ handleSubmit_settled (Return {| ok := true; body := Throw e |}) w
    = (Return (), reverted e w)
  ∧ handleSubmit_settled (Return {| ok := false; body := Throw e |}) w
    = (Return (), reverted (Error "Conversion failed") w).
Proof.
  unfold reverted. repeat split; run_handler; rewrite <- app_assoc; reflexivity.
Qed.

(** *** What is on the page together *)

(** X16. The spinner and the download panel are never on the page
    together.  While the spinner shows, the submit button is disabled and
    reads [Converting...]; while the panel shows, the button is enabled
    and reads [Convert to XML], so the same PDF can be converted again. *)
Theorem spinner_or_panel s :
  (spinner_shown s = true →
     SuccessDownload s = Return None
     ∧ submit_disabled s = true
     ∧ submit_label s = "Converting...")
  ∧ (∀ filename, SuccessDownload s = Return (Some filename) →
     spinner_shown s = false
     ∧ submit_disabled s = false
     ∧ submit_label s = "Convert to XML").
Proof.
  split.
  - unfold spinner_shown. intros Hspin. apply bool_decide_eq_true_1 in Hspin.
    unfold SuccessDownload, submit_disabled, submit_label. rewrite Hspin.
    rewrite (bool_decide_eq_true_2 (converting = converting)) by reflexivity.
    rewrite (bool_decide_eq_false_2 (converting = completed)) by discriminate.
    split; [reflexivity|]. split; [apply orb_true_r | reflexivity].
  - intros filename Hshown.
    destruct (SuccessDownload_rendered _ _ Hshown) as (Hstate & _ & pdf & Hpdf & _).
    unfold spinner_shown, submit_disabled, submit_label. rewrite Hstate, Hpdf.
    rewrite (bool_decide_eq_false_2 (completed = converting)) by discriminate.
    rewrite bool_decide_eq_true_2 by eauto. repeat split.
Qed.

(** X17. A conversion that is repeated and fails puts the finished one out
    of reach: from a [completed] page with its PDF, submitting again and
    having that request rejected leaves the state [idle] with the download
    URL still held, no panel to download it with, and the validation
    errors of the earlier conversion still in place. *)
Theorem failed_reconversion_hides_archive a pdf url e :
  conversionState (session (world a)) = completed →
  pdfFile (session (world a)) = Some pdf →
  downloadUrl (session (world a)) = Some url →
  session (world (run a [submit; settle (length (pending (world a))) (Throw e)]))
  = with_conversionState idle (session (world a))
  ∧ downloadUrl (session (world
      (run a [submit; settle (length (pending (world a))) (Throw e)]))) = Some url
  ∧ SuccessDownload (session (world
      (run a [submit; settle (length (pending (world a))) (Throw e)]))) = Return None
  ∧ pending (world (run a [submit; settle (length (pending (world a))) (Throw e)]))
    = pending (world a).
Proof.
  intros Hstate Hpdf Hurl.
  assert (Henabled : submit_disabled (session (world a)) = false).
  { unfold submit_disabled. rewrite Hstate, Hpdf.
    rewrite bool_decide_eq_true_2 by eauto.
    rewrite bool_decide_eq_false_2 by discriminate. reflexivity. }
  assert (Hrun : world (run a [submit; settle (length (pending (world a))) (Throw e)]) =
    {| session := with_conversionState idle (session (world a));
       effects := (effects (world a) ++
          [preventDefault;
           fetch "http://localhost:5000/convert" "POST" (form_of pdf (session (world a)))])
          ++ [console_error "Conversion error:" e; alert ("Error: " +:+ message e)];
       pending := pending (world a);
       minted := minted (world a) |}).
  { unfold run. cbn [foldl].
    assert (Hsubmit : step a submit =
      {| pdfZone := pdfZone a; figuresZone := figuresZone a;
         world := (handleSubmit (world a)).2 |}).
    { simpl. rewrite Henabled. reflexivity. }
    rewrite Hsubmit, (submit_with_pdf _ pdf Hpdf).
    cbn [step world snd pending].
    rewrite list_lookup_middle by reflexivity.
    unfold in_world, settled. cbn [world session effects pending minted].
    rewrite (delete_middle (pending (world a)) [] _), app_nil_r.
    unfold exec.
    rewrite (fetch_rejected_is_caught _ e). reflexivity. }
  rewrite Hrun. cbn [session pending].
  split; [reflexivity|]. split; [exact Hurl|]. split; [|reflexivity].
  unfold SuccessDownload. simpl. reflexivity.
Qed.

(** *** From the first page to the request *)

(** X18. On the page as first shown, selecting a PDF, adding figures,
    choosing the article type and submitting sends exactly one request,
    with the PDF, that article type and the figures in the order they were
    added; the state is [converting] and the spinner shows. *)
Theorem first_submission (pdf : File) (figs : list File) (article : string) :
  type pdf = "application/pdf" →
  pending (world (run initial_App
    [change pdf_zone [pdf]; change figures_zone figs; select_articleType article; submit]))
  = [[("pdf", form_file pdf); ("articleType", form_string article)]
     ++ ((λ f, ("figures", form_file f)) <$> figs)]
  ∧ conversionState (session (world (run initial_App
      [change pdf_zone [pdf]; change figures_zone figs; select_articleType article;
       submit]))) = converting
  ∧ spinner_shown (session (world (run initial_App
      [change pdf_zone [pdf]; change figures_zone figs; select_articleType article;
       submit]))) = true.
Proof.
  intros Htype.
  assert (Hfields : figure_field <$> (Some <$> figs)
                    = (λ f, ("figures", form_file f)) <$> figs).
  { induction figs as [| f figs IH]; [reflexivity|].
    rewrite !fmap_cons. f_equal. exact IH. }
  simpl. unfold handlePDFUpload. simpl. rewrite Htype. simpl.
  unfold form_of. simpl. rewrite Hfields. repeat split.
Qed.

(** *** A figure that is no array *)

(** X19. [handleFigureUpload] wraps what is no array into one: a single
    file becomes one more figure, and [undefined] becomes a figure that is
    [undefined].  With such a figure the list of figure names throws when
    rendered, and the form that a submit builds carries the string
    [undefined] in its place. *)
Theorem figure_that_is_no_array w (f pdf : File) :
  figures (session (exec (handleFigureUpload (upload_file f)) w))
  = figures (session w) ++ [Some f]
  ∧ figures (session (exec (handleFigureUpload upload_undefined) w))
    = figures (session w) ++ [None]
  ∧ figure_list (session (exec (handleFigureUpload upload_undefined) w)) = None
  ∧ last (form_of pdf (session (exec (handleFigureUpload upload_undefined) w)))
    = Some ("figures", form_string "undefined").
Proof.
  split; [reflexivity|]. split; [reflexivity|]. split.
  - simpl. unfold figure_list, names_of. simpl.
    induction (figures (session w)) as [| [g |] l IH]; simpl; [reflexivity | | reflexivity].
    unfold names_of in IH. simpl in IH. rewrite IH. reflexivity.
  - unfold form_of. simpl. rewrite fmap_app. simpl.
    exact (last_snoc _ (_ :: _)).
Qed.

End Behaviour.

(** ** The properties at work *)

Section Examples.

#[local] Existing Instance integers.
#[local] Existing Instance example_platform.

(** C5 on the page as it is first shown. *)
Lemma handleSubmit_without_pdf_only_alerts_witness :
  pdfFile (session (world initial_App)) = None
  ∧ handleSubmit (world initial_App) =
      (Return (),
       {| session := initial_session;
          effects := [preventDefault; alert "Please select a PDF file first"];
          pending := [];
          minted := 0 |}).
Proof.
  split; [reflexivity|].
  apply (handleSubmit_without_pdf_only_alerts (world initial_App)). reflexivity.
Defined.

(** C1 (as amended) on the page with [paper] under conversion. *)
Lemma submit_while_converting_witness :
  conversionState (session (world converting_page)) = converting
  ∧ submit_disabled (session (world converting_page)) = true
  ∧ step converting_page submit = converting_page
  ∧ ∀ pdf, pdfFile (session (world converting_page)) = Some pdf →
      handleSubmit (world converting_page) =
        (Return (),
         {| session := session (world converting_page);
            effects := effects (world converting_page) ++
              [preventDefault;
               fetch "http://localhost:5000/convert" "POST"
                 (form_of pdf (session (world converting_page)))];
            pending := pending (world converting_page)
                       ++ [form_of pdf (session (world converting_page))];
            minted := minted (world converting_page) |}).
Proof.
  split; [reflexivity|].
  apply (submit_while_converting converting_page). reflexivity.
Defined.

(** C1, as it is stated, fails.  With a PDF selected and its conversion
    under way, [handleSubmit] sends a second request: two are pending
    afterwards.  The page itself gets there as well, since selecting a PDF
    again sets the state back to [idle] and so enables the button while the
    first request is still pending. *)
Lemma second_request_while_converting :
  conversionState (session (world converting_page)) = converting
  ∧ pdfFile (session (world converting_page)) = Some paper
  ∧ pending (world converting_page) = [paper_form]
  ∧ effects (exec handleSubmit (world converting_page))
    = effects (world converting_page) ++
      [preventDefault; fetch "http://localhost:5000/convert" "POST" paper_form]
  ∧ pending (exec handleSubmit (world converting_page)) = [paper_form; paper_form]
  ∧ pending (world (run initial_App
      [change pdf_zone [paper]; submit; change pdf_zone [paper]; submit]))
    = [paper_form; paper_form].
Proof. repeat split. Qed.

(** C3: a PDF selected on the page that shows a finished conversion. *)
Lemma handlePDFUpload_pdf_resets_witness :
  (upload_file paper = upload_file paper
   ∨ ∃ rest, upload_file paper = upload_array (paper :: rest))
  ∧ type paper = "application/pdf"
  ∧ handlePDFUpload (upload_file paper) (world completed_page) =
      (Return (),
       {| session :=
            {| articleType := "abstract"; pdfFile := Some paper; figures := [];
               conversionState := idle; downloadUrl := None;
               validationErrors := JArray [] |};
          effects := effects (world completed_page);
          pending := []; minted := 1 |}).
Proof.
  split; [left; reflexivity|]. split; [reflexivity|].
  apply (handlePDFUpload_pdf_resets (world completed_page) (upload_file paper) paper);
    [left; reflexivity | reflexivity].
Defined.

(** C10: an image handed to the PDF intake of that page. *)
Lemma handlePDFUpload_rejects_other_types_witness :
  type figure1 ≠ "application/pdf"
  ∧ handlePDFUpload (upload_file figure1) (world completed_page) =
      (Return (),
       {| session := session (world completed_page);
          effects := effects (world completed_page) ++ [alert "Please upload a PDF file"];
          pending := pending (world completed_page);
          minted := minted (world completed_page) |}).
Proof.
  assert (Htype : type figure1 ≠ "application/pdf") by (simpl; discriminate).
  split; [exact Htype|].
  apply (handlePDFUpload_rejects_other_types (world completed_page) (upload_file figure1)).
  exact Htype.
Defined.



(** C4, as it is stated, fails.  The failure body has an [error] string
    field, the empty string; the message shown is not that string but the
    generic one. *)
Lemma empty_error_gives_generic_message :
  ok failed_empty_error = false
  ∧ response_json failed_empty_error = Return (JObject [("error", JString "")])
  ∧ effects (exec (handleSubmit_settled (Return failed_empty_error))
               (world converting_page))
    = effects (world converting_page) ++
      [console_error "Conversion error:" (Error "Conversion failed");
       alert "Error: Conversion failed"]
  ∧ message (Error "Conversion failed") ≠ "".
Proof. repeat split. discriminate. Qed.

(** A body that is JSON but [null] has no [error] field either; reading
    the field throws, and the engine's message is shown. *)
Lemma null_body_gives_engine_message :
  response_json failed_null = Return JNull
  ∧ effects (exec (handleSubmit_settled (Return failed_null)) (world converting_page))
    = effects (world converting_page) ++
      [console_error "Conversion error:"
         (Error "Cannot read properties of null (reading 'error')");
       alert "Error: Cannot read properties of null (reading 'error')"]
  ∧ conversionState (session (exec (handleSubmit_settled (Return failed_null))
                                (world converting_page))) = idle.
Proof. repeat split. Qed.

(** C4 (as amended) for HTTP 500 with the body [{"error":"bad pdf"}]. *)
Lemma failure_response_reverts_to_idle_witness :
  ok failed_bad_pdf = false
  ∧ ∃ e,
      handleSubmit_settled (Return failed_bad_pdf) (world converting_page) =
        (Return (),
         {| session := with_conversionState idle (session (world converting_page));
            effects := effects (world converting_page) ++
              [console_error "Conversion error:" e; alert ("Error: " +:+ message e)];
            pending := pending (world converting_page);
            minted := minted (world converting_page) |})
      ∧ message e = "bad pdf".
Proof.
  split; [reflexivity|].
  destruct (failure_response_reverts_to_idle (world converting_page) failed_bad_pdf eq_refl)
    as (e & Hrun & _ & _ & _ & Hmessage).
  exists e. split; [exact Hrun|].
  apply (Hmessage [("error", JString "bad pdf")]); [reflexivity | reflexivity | discriminate].
Defined.

(** The same response, evaluated: the alert reads [Error: bad pdf]. *)
Lemma bad_pdf_alert :
  bad_pdf_text = "{" +:+ quoted "error" +:+ ":" +:+ quoted "bad pdf" +:+ "}"
  ∧ exec (handleSubmit_settled (Return failed_bad_pdf)) (world converting_page) =
      {| session := with_conversionState idle (session (world converting_page));
         effects := effects (world converting_page) ++
           [console_error "Conversion error:" (Error "bad pdf"); alert "Error: bad pdf"];
         pending := pending (world converting_page);
         minted := 0 |}.
Proof. split; reflexivity. Qed.

(** C9 twice: a body that is no archive, and a report that is no JSON. *)
Lemma malformed_archive_reverts_to_idle_witness :
  (ok ok_not_an_archive = true
   ∧ body ok_not_an_archive = Return "<html>It works!</html>"
   ∧ JSZip_loadAsync "<html>It works!</html>"
     = Throw (Error "Can't find end of central directory : is this a zip file ?")
   ∧ handleSubmit_settled (Return ok_not_an_archive) (world converting_page) =
       (Return (),
        {| session := with_conversionState idle (session (world converting_page));
           effects := effects (world converting_page) ++
             [console_error "Conversion error:"
                (Error "Can't find end of central directory : is this a zip file ?");
              alert "Error: Can't find end of central directory : is this a zip file ?"];
           pending := pending (world converting_page);
           minted := minted (world converting_page) |}))
  ∧ (ok ok_report_cut_short = true
     ∧ zip_file archive_report_cut_short "validation_report.json"
       = Some {| dir := false; async_string := Return "{" |}
     ∧ JSON_parse "{" = Throw (Error "Unexpected token in JSON")
     ∧ handleSubmit_settled (Return ok_report_cut_short) (world converting_page) =
         (Return (),
          {| session := with_conversionState idle (session (world converting_page));
             effects := effects (world converting_page) ++
               [console_error "Conversion error:" (Error "Unexpected token in JSON");
                alert "Error: Unexpected token in JSON"];
             pending := pending (world converting_page);
             minted := minted (world converting_page) |})).
Proof.
  split.
  - split; [reflexivity|]. split; [reflexivity|]. split; [reflexivity|].
    apply (malformed_archive_reverts_to_idle (world converting_page) ok_not_an_archive
             "<html>It works!</html>"
             (Error "Can't find end of central directory : is this a zip file ?"));
      [reflexivity | reflexivity |].
    left. reflexivity.
  - split; [reflexivity|]. split; [reflexivity|]. split; [reflexivity|].
    apply (malformed_archive_reverts_to_idle (world converting_page) ok_report_cut_short
             "<archive: article.xml, validation_report.json (cut short)>"
             (Error "Unexpected token in JSON"));
      [reflexivity | reflexivity |].
    right. exists archive_report_cut_short,
             {| dir := false; async_string := Return "{" |}, "{".
    repeat split; reflexivity.
Defined.

(** C6 on the page that shows the finished conversion of [paper]. *)
Lemma download_resets_session_witness :
  reachable completed_page
  ∧ conversionState (session (world completed_page)) = completed
  ∧ pdfFile (session (world completed_page)) = Some paper
  ∧ step completed_page download =
      {| pdfZone := pdfZone completed_page;
         figuresZone := figuresZone completed_page;
         world :=
           {| session :=
                {| articleType := "abstract"; pdfFile := None; figures := [];
                   conversionState := idle; downloadUrl := None;
                   validationErrors := JArray [] |};
              effects := effects (world completed_page) ++
                [save_link {| url_id := 0;
                              url_blob := "<archive: article.xml, validation_report.json>" |}
                   "paper.zip"];
              pending := [];
              minted := 1 |} |}
  ∧ step (step completed_page download) submit = step completed_page download.
Proof.
  assert (Hreach : reachable completed_page).
  { exists [change pdf_zone [paper]; submit; settle 0 (Return ok_with_report)].
    reflexivity. }
  split; [exact Hreach|]. split; [reflexivity|]. split; [reflexivity|].
  destruct (download_resets_session completed_page paper Hreach eq_refl eq_refl)
    as (url & Hurl & _ & Hstep & Hsubmit & _).
  split; [|exact Hsubmit].
  rewrite Hstep. simpl in Hurl. injection Hurl as <-. reflexivity.
Defined.

(** C7. [replace] removes the first [.pdf] it finds, which need not be the
    extension: for the PDF [a.pdf.b.pdf] the panel shows, and the download
    saves, [a.b.pdf.zip], where the extension replaced by [.zip] gives
    [a.pdf.b.zip]; an upper-case extension stays in the name.  The usual
    name is handled as meant. *)
Theorem zip_name_removes_first_pdf :
  zip_name nested = "a.b.pdf.zip"
  ∧ pdfFile (session (world nested_page)) = Some nested
  ∧ SuccessDownload (session (world nested_page)) = Return (Some "a.b.pdf.zip")
  ∧ last (effects (world (step nested_page download)))
    = Some (save_link {| url_id := 0; url_blob := "<archive: article.xml>" |}
              "a.b.pdf.zip")
  ∧ zip_name {| name := "scan.PDF"; type := "application/pdf" |} = "scan.PDF.zip"
  ∧ zip_name paper = "paper.zip".
Proof. repeat split. Qed.

(** *** The further properties at work *)

Lemma illustrated_page_reachable : reachable illustrated_page.
Proof.
  exists [change pdf_zone [paper]; drop figures_zone [figure1]; submit]. reflexivity.
Defined.

Lemma downloaded_page_reachable : reachable downloaded_page.
Proof.
  exists [change pdf_zone [paper]; drop figures_zone [figure1]; submit;
          settle 0 (Return ok_without_report); download].
  reflexivity.
Defined.

(** X2 on the page that has sent [paper] with one figure. *)
Lemma requests_are_conversion_requests_witness :
  reachable illustrated_page
  ∧ pending (world illustrated_page)
    = [[("pdf", form_file paper); ("articleType", form_string "abstract");
        ("figures", form_file figure1)]]
  ∧ Forall conversion_request (effects (world illustrated_page))
  ∧ Forall conversion_form (pending (world illustrated_page)).
Proof.
  split; [exact illustrated_page_reachable|]. split; [reflexivity|].
  apply (requests_are_conversion_requests illustrated_page illustrated_page_reachable).
Defined.

(** X3 on the same page. *)
Lemma stored_uploads_are_files_witness :
  reachable illustrated_page
  ∧ (∀ pdf, pdfFile (session (world illustrated_page)) = Some pdf →
       type pdf = "application/pdf")
  ∧ ∃ figs, figures (session (world illustrated_page)) = Some <$> figs
            ∧ figure_list (session (world illustrated_page)) = Some (name <$> figs).
Proof.
  split; [exact illustrated_page_reachable|].
  apply (stored_uploads_are_files illustrated_page illustrated_page_reachable).
Defined.

(** X4 after the download: the session has no figures, the zone still
    lists the one that was added. *)
Lemma figures_zone_keeps_its_list_witness :
  reachable downloaded_page
  ∧ figures (session (world downloaded_page)) = []
  ∧ files (figuresZone downloaded_page) = [Some figure1]
  ∧ (∃ earlier, files (figuresZone downloaded_page)
                = earlier ++ figures (session (world downloaded_page)))
  ∧ is_Some (DropZone_names (figuresZone downloaded_page)).
Proof.
  split; [exact downloaded_page_reachable|]. split; [reflexivity|].
  split; [reflexivity|].
  destruct (figures_zone_keeps_its_list downloaded_page downloaded_page_reachable)
    as (Hsuffix & Hnames & _).
  split; assumption.
Defined.

(** X5 on the same page. *)
Lemma pdf_zone_lists_one_entry_witness :
  reachable illustrated_page
  ∧ length (files (pdfZone illustrated_page)) ≤ 1
  ∧ (DropZone_label false (pdfZone illustrated_page) = "Click or drag a file to upload"
     ∨ DropZone_label false (pdfZone illustrated_page) = "1 file selected").
Proof.
  split; [exact illustrated_page_reachable|].
  apply (pdf_zone_lists_one_entry illustrated_page illustrated_page_reachable).
Defined.

(** X9: an image dropped on the PDF zone of the finished conversion. *)
Lemma refused_file_is_listed_witness :
  type figure1 ≠ "application/pdf"
  ∧ files (pdfZone (step completed_page (choose true pdf_zone [figure1])))
    = [Some figure1]
  ∧ DropZone_names (pdfZone (step completed_page (choose true pdf_zone [figure1])))
    = Some [name figure1]
  ∧ session (world (step completed_page (choose true pdf_zone [figure1])))
    = session (world completed_page)
  ∧ last (effects (world (step completed_page (choose true pdf_zone [figure1]))))
    = Some (alert "Please upload a PDF file").
Proof.
  assert (Htype : type figure1 ≠ "application/pdf") by (simpl; discriminate).
  split; [exact Htype|].
  apply (refused_file_is_listed completed_page true figure1 [] Htype).
Defined.

(** X10 for [a.pdf.b.pdf]: the first [.pdf] comes after [a]. *)
Lemma zip_name_takes_out_first_pdf_witness :
  name nested = "a" +:+ ".pdf" +:+ ".b.pdf"
  ∧ zip_name nested = "a" +:+ ".b.pdf" +:+ ".zip".
Proof.
  split; [reflexivity|].
  apply (proj1 (zip_name_takes_out_first_pdf nested) "a" ".b.pdf"); [reflexivity|].
  intros u v Hsplit Hv. destruct u as [| c u].
  - change ("a" = v) in Hsplit. subst v. reflexivity.
  - change ("a" = String c (u +:+ v)) in Hsplit. injection Hsplit as _ Hrest.
    destruct u as [| c' u]; [|discriminate].
    change ("" = v) in Hrest. subst v. contradiction.
Defined.

(** X11 on the first page and on the finished conversion. *)
Lemma download_acts_once_witness :
  conversionState (session (world initial_App)) ≠ completed
  ∧ step initial_App download = initial_App
  ∧ step (step completed_page download) download = step completed_page download.
Proof.
  assert (Hstate : conversionState (session (world initial_App)) ≠ completed)
    by (simpl; discriminate).
  split; [exact Hstate|]. split.
  - apply (proj1 (download_acts_once initial_App) Hstate).
  - apply (proj2 (download_acts_once completed_page)).
Defined.

(** X12: [a.pdf.b.pdf] selected while [paper] is under conversion. *)
Lemma pending_response_lands_on_new_pdf_witness :
  pending (world converting_page) !! 0 = Some paper_form
  ∧ session (world (run converting_page
      [choose false pdf_zone [nested]; settle 0 (Return ok_without_report)]))
    = {| articleType := "abstract"; pdfFile := Some nested; figures := [];
         conversionState := completed;
         downloadUrl := Some {| url_id := 0; url_blob := "<archive: article.xml>" |};
         validationErrors := JArray [] |}
  ∧ SuccessDownload (session (world (run converting_page
      [choose false pdf_zone [nested]; settle 0 (Return ok_without_report)])))
    = Return (Some "a.b.pdf.zip").
Proof.
  split; [reflexivity|].
  assert (Hloaded : JSZip_loadAsync "<archive: article.xml>"
                    = Return archive_without_report) by reflexivity.
  assert (Hentry : zip_file archive_without_report "validation_report.json" = None)
    by reflexivity.
  destruct (pending_response_lands_on_new_pdf converting_page 0 paper_form false
              nested [] ok_without_report "<archive: article.xml>"
              archive_without_report eq_refl eq_refl eq_refl eq_refl Hloaded Hentry)
    as (_ & _ & Hsession & Hpanel).
  split; [exact Hsession | exact Hpanel].
Defined.

(** X14 on the second platform: the report is the text [null]. *)
Lemma report_that_is_no_object_witness :
  @handleSubmit_settled integers null_report_platform (Return ok_null_report)
    (world converting_page)
  = (Return (),
     reverted (Error "Cannot read properties of null (reading 'errors')")
       (world converting_page)).
Proof.
  assert (Hloaded : @JSZip_loadAsync integers null_report_platform
                      "<archive: article.xml, validation_report.json (null)>"
                    = Return archive_null_report) by reflexivity.
  assert (Hentry : zip_file archive_null_report "validation_report.json"
                   = Some {| dir := false; async_string := Return "null" |})
    by reflexivity.
  assert (Hparse : @JSON_parse integers null_report_platform "null" = Return JNull)
    by reflexivity.
  apply (proj1 (@report_that_is_no_object integers null_report_platform
                  (world converting_page) ok_null_report
                  "<archive: article.xml, validation_report.json (null)>"
                  archive_null_report
                  {| dir := false; async_string := Return "null" |} "null" JNull
                  eq_refl eq_refl Hloaded Hentry eq_refl Hparse)).
  reflexivity.
Defined.

(** X16 on the page under conversion and on the finished one. *)
Lemma spinner_or_panel_witness :
  spinner_shown (session (world converting_page)) = true
  ∧ SuccessDownload (session (world converting_page)) = Return None
  ∧ submit_disabled (session (world converting_page)) = true
  ∧ SuccessDownload (session (world completed_page)) = Return (Some "paper.zip")
  ∧ spinner_shown (session (world completed_page)) = false
  ∧ submit_disabled (session (world completed_page)) = false.
Proof.
  split; [reflexivity|].
  destruct (proj1 (spinner_or_panel (session (world converting_page))) eq_refl)
    as (Hpanel & Hdisabled & _).
  split; [exact Hpanel|]. split; [exact Hdisabled|]. split; [reflexivity|].
  destruct (proj2 (spinner_or_panel (session (world completed_page))) "paper.zip" eq_refl)
    as (Hspinner & Henabled & _).
  split; [exact Hspinner | exact Henabled].
Defined.

(** X17: [paper] converted, submitted again, the network down. *)
Lemma failed_reconversion_hides_archive_witness :
  conversionState (session (world completed_page)) = completed
  ∧ downloadUrl (session (world (run completed_page
      [submit; settle 0 (Throw (Error "Failed to fetch"))])))
    = Some {| url_id := 0;
              url_blob := "<archive: article.xml, validation_report.json>" |}
  ∧ SuccessDownload (session (world (run completed_page
      [submit; settle 0 (Throw (Error "Failed to fetch"))]))) = Return None
  ∧ conversionState (session (world (run completed_page
      [submit; settle 0 (Throw (Error "Failed to fetch"))]))) = idle
  ∧ validationErrors (session (world (run completed_page
      [submit; settle 0 (Throw (Error "Failed to fetch"))]))) = JArray [title_missing].
Proof.
  split; [reflexivity|].
  destruct (failed_reconversion_hides_archive completed_page paper
              {| url_id := 0;
                 url_blob := "<archive: article.xml, validation_report.json>" |}
              (Error "Failed to fetch") eq_refl eq_refl eq_refl)
    as (Hsession & Hurl & Hpanel & _).
  split; [exact Hurl|]. split; [exact Hpanel|].
  change (length (pending (world completed_page))) with 0 in Hsession.
  rewrite Hsession. split; reflexivity.
Defined.

(** X18 for [paper] with one figure as a full article. *)
Lemma first_submission_witness :
  type paper = "application/pdf"
  ∧ pending (world (run initial_App
      [change pdf_zone [paper]; change figures_zone [figure1];
       select_articleType "full"; submit]))
    = [[("pdf", form_file paper); ("articleType", form_string "full");
        ("figures", form_file figure1)]].
Proof.
  split; [reflexivity|].
  apply (proj1 (first_submission paper [figure1] "full" eq_refl)).
Defined.

End Examples.
